(** * jupyterhub_manager: the hub adapter and the gateway routes

    A shallow embedding of [jupyterhub_manager/client/base.py] (the class
    [HubClient]) and of [jupyterhub_manager/api/main.py] (the FastAPI
    routes), with the request models of [jupyterhub_manager/models.py].

    Every coroutine of the source becomes a computation over the trace of
    what the process did to the outside world (opening the HTTP client,
    sending a request, closing the client); a raised Python exception is
    the left summand of the result. *)

From stdpp Require Import base strings gmap list fin_maps.
From Stdlib Require Import ZArith Lia Ascii.

Set Warnings "-clear-no-such-hyp".

Local Open Scope string_scope.
Local Open Scope Z_scope.
Local Open Scope list_scope.

(** ** Values *)

(** Decoded JSON, as Python's [json] module gives it: a [dict] is a finite
    map with string keys, compared by content (two dicts with the same
    items are equal in Python whatever the insertion order). Numbers are
    the integers; no payload built here holds any other. *)
#[warnings="-register-all"]
Inductive json : Type :=
  | JNull
  | JBool (b : bool)
  | JInt (z : Z)
  | JStr (s : string)
  | JList (l : list json)
  | JObj (m : gmap string json).

(** The exceptions the two modules can see, all of them subclasses of
    [Exception]. [message] is what [str(e)] gives. *)
Inductive exn : Type :=
  | HTTPStatusError (message : string)      (* httpx: non-2xx answer *)
  | TransportError (message : string)       (* httpx: connect, TLS, timeout *)
  | JSONDecodeError (message : string)      (* Response.json() on a bad body *)
  | AttributeError (message : string)       (* attribute missing on a value *)
  | HTTPException (status_code : Z) (detail : string).  (* fastapi *)

(** What [httpx.AsyncClient.request] is called with: [json = None] means
    that the request carries no body. *)
Record request : Type := Request {
  method : string;
  path : string;
  body : option json
}.

(** An [httpx.Response]: the status code and the raw bytes of the body. *)
Record response : Type := Response {
  status_code : Z;
  content : string
}.

Inductive event : Type :=
  | Opened                 (* httpx.AsyncClient(...) constructed *)
  | Sent (r : request)     (* AsyncClient.request awaited *)
  | Closed.                (* AsyncClient.aclose awaited *)

(** ** Coroutines as trace transformers *)

Definition io (A : Type) : Type := list event → (exn + A) * list event.

Definition raise {A} (e : exn) : io A := λ t, (inl e, t).
#[global] Instance io_ret : MRet io := λ A a t, (inr a, t).
#[global] Instance io_bind : MBind io := λ A B k m t,
  match m t with
  | (inr a, t') => k a t'
  | (inl e, t') => (inl e, t')
  end.

(** [try: m  except Exception as e: h e] *)
Definition try_except {A} (m : io A) (h : exn → io A) : io A :=
  λ t, match m t with
       | (inr a, t') => (inr a, t')
       | (inl e, t') => h e t'
       end.

(** [try: m  finally: f] : [f] runs on both exits, and the outcome of [m]
    stands when [f] itself does not raise. *)
Definition try_finally {A} (m : io A) (f : io unit) : io A :=
  λ t, match m t with
       | (r, t') => match f t' with
                    | (inr _, t'') => (r, t'')
                    | (inl e, t'') => (inl e, t'')
                    end
       end.

Definition emit (ev : event) : io unit := λ t, (inr tt, t ++ [ev]).

Definition outcome {A} (m : io A) : exn + A := fst (m []).
Definition trace_of {A} (m : io A) : list event := snd (m []).

Fixpoint requests (t : list event) : list request :=
  match t with
  | [] => []
  | Sent r :: t' => r :: requests t'
  | _ :: t' => requests t'
  end.

(** Python truth values of the optional arguments the adapter tests. *)
Definition truthy_str (s : option string) : bool :=
  match s with Some (String _ _) => true | _ => false end.
Definition truthy_int (z : option Z) : bool :=
  match z with Some z => negb (z =? 0) | None => false end.
Definition truthy_list {A} (l : option (list A)) : bool :=
  match l with Some (_ :: _) => true | _ => false end.

Definition truthy_dict {A} (d : option (gmap string A)) : bool :=
  match d with
  | Some m => negb (bool_decide (size m = 0%nat))
  | None => false
  end.

Definition JStrs (l : list string) : json := JList (JStr <$> l).

(** The class name Python prints for a decoded value. *)
Definition type_name (v : json) : string :=
  match v with
  | JNull => "NoneType"
  | JBool _ => "bool"
  | JInt _ => "int"
  | JStr _ => "str"
  | JList _ => "list"
  | JObj _ => "dict"
  end.

(** [v.get(k, d)]: only a [dict] has the method. *)
Definition py_get (v : json) (k : string) (d : json) : io json :=
  match v with
  | JObj m => mret (default d (m !! k))
  | _ => raise (AttributeError
                  ("'" +:+ type_name v +:+ "' object has no attribute 'get'"))
  end.

(** ** The adapter interface

    The routes only use the public coroutines of [HubClient]; the tests
    replace the class by a mock with the same methods. An optional
    argument is an [option]: [None] stands for an argument left out (or
    passed as [None] where the default is [None]). *)
Module Adapter.
Record t : Type := Make {
  close : io unit;
  get_health : io json;
  get_info : io json;
  list_users : io json;
  get_user : string → io json;
  create_user : string → option bool → io json;
  delete_user : string → io json;
  modify_user : string → option bool → io json;
  list_servers : string → io json;
  get_server : string → option string → io json;
  start_server :
    string → option string → option (gmap string json) → io json;
  stop_server : string → option string → io json;
  list_groups : io json;
  get_group : string → io json;
  create_group : string → option (list string) → io json;
  delete_group : string → io json;
  add_user_to_group : string → string → io json;
  remove_user_from_group : string → string → io json;
  list_services : io json;
  get_service : string → io json;
  list_tokens : io json;
  get_token : string → io json;
  create_token : string → option string → option Z → io json;
  delete_token : string → string → io json;
  shutdown_hub : io json;
  get_proxy : io json;
  force_proxy_check : io json;
  cull_servers : io json;
  user_activity : string → option (list string) → io json
}.
End Adapter.

(** ** settings.py *)
Module Settings.
Record t : Type := {
  jupyterhub_url : string;
  api_token : string;
  verify_ssl : bool;
  request_timeout : Z;
  api_host : string;
  api_port : Z;
  streamlit_port : Z
}.
End Settings.

(** ** client/base.py *)
Module HubClient.

(** The coroutines that issue POST, PATCH or DELETE, with their
    arguments. *)
Inductive mutation : Type :=
  | CreateUser (name : string) (admin : option bool)
  | DeleteUser (name : string)
  | ModifyUser (name : string) (admin : option bool)
  | StartServer (user : string) (server_name : option string)
      (options : option (gmap string json))
  | StopServer (user : string) (server_name : option string)
  | CreateGroup (name : string) (users : option (list string))
  | DeleteGroup (name : string)
  | AddUserToGroup (group_name username : string)
  | RemoveUserFromGroup (group_name username : string)
  | CreateToken (user : string) (note : option string)
      (expires_in : option Z)
  | DeleteToken (user token_id : string)
  | ShutdownHub
  | ForceProxyCheck
  | CullServers
  | UserActivity (user : string) (servers : option (list string)).

(** The ones built on [HubClient.delete]. *)
Definition is_delete (m : mutation) : bool :=
  match m with
  | DeleteUser _ | StopServer _ _ | DeleteGroup _
  | RemoveUserFromGroup _ _ | DeleteToken _ _ => true
  | _ => false
  end.

(** The coroutines that only read: one GET each and nothing done to the
    result. [get_health] and [list_servers] do more and are not among
    them. *)
Inductive query : Type :=
  | GetInfo
  | ListUsers
  | GetUser (name : string)
  | GetServer (user : string) (server_name : option string)
  | ListGroups
  | GetGroup (name : string)
  | ListServices
  | GetService (name : string)
  | ListTokens
  | GetToken (token_id : string)
  | GetProxy.

(** [s.rstrip("/")] *)
Fixpoint rstrip_slash (s : string) : string :=
  match s with
  | EmptyString => EmptyString
  | String c s' =>
      match rstrip_slash s' with
      | EmptyString =>
          if Ascii.eqb c "/"%char then EmptyString else String c EmptyString
      | r => String c r
      end
  end.

(** What [HubClient.__init__] stores on the object, and what it hands to
    [httpx.AsyncClient]. *)
Record attributes : Type := {
  _base_url : string;
  _api_token : string;
  _verify : bool;
  client_base_url : string;             (* base_url= *)
  client_authorization : string;        (* headers["Authorization"] *)
  client_timeout : Z;                   (* timeout= *)
  client_verify : bool                  (* verify= *)
}.

Definition attributes_of (settings : Settings.t)
    (base_url api_token : option string) (verify : option bool)
  : attributes :=
  let _base_url :=
    rstrip_slash (if truthy_str base_url then default "" base_url
                  else Settings.jupyterhub_url settings) in
  let _api_token :=
    if truthy_str api_token then default "" api_token
    else Settings.api_token settings in
  let _verify :=
    match verify with
    | None => Settings.verify_ssl settings
    | Some v => v
    end in
  {| _base_url := _base_url;
     _api_token := _api_token;
     _verify := _verify;
     client_base_url := _base_url +:+ "/hub/api";
     client_authorization := "token " +:+ _api_token;
     client_timeout := Settings.request_timeout settings;
     client_verify := _verify |}.

Section Upstream.

(** The upstream hub and the HTTP library, seen from the adapter: what
    awaiting [AsyncClient.request] gives after the calls made so far,
    what [Response.json()] gives on a body (the decoded value, or the
    message of the decoding error), and the text httpx puts in the
    [HTTPStatusError] of a response. *)
Variable hub : list event → request → exn + response.
Variable loads : string → string + json.
Variable status_message : response → string.

(** [HubClient.__init__]: builds the [httpx.AsyncClient]. *)
Definition init : io unit := emit Opened.

Definition close : io unit := emit Closed.

(** [await self._client.request(method, path, **kwargs)] *)
Definition client_request (method path : string) (json_body : option json)
  : io response :=
  λ t, let r := Request method path json_body in (hub t r, t ++ [Sent r]).

Definition is_success (resp : response) : bool :=
  (200 <=? status_code resp) && (status_code resp <=? 299).

Definition raise_for_status (resp : response) : io unit :=
  if is_success resp then mret tt
  else raise (HTTPStatusError (status_message resp)).

Definition _request (method path : string) (json_body : option json)
  : io response :=
  resp ← client_request method path json_body;
  _ ← raise_for_status resp;
  mret resp.

(** [resp.json()] *)
Definition json_of (resp : response) : io json :=
  match loads (content resp) with
  | inl m => raise (JSONDecodeError m)
  | inr v => mret v
  end.

Definition get (path : string) : io json :=
  resp ← _request "GET" path None; json_of resp.

Definition post (path : string) (json_body : option json) : io json :=
  resp ← _request "POST" path json_body; json_of resp.

Definition delete (path : string) : io json :=
  resp ← _request "DELETE" path None;
  match content resp with
  | String _ _ => json_of resp
  | EmptyString => mret (JObj {[ "status" := JStr "deleted" ]})
  end.

Definition patch (path : string) (json_body : option json) : io json :=
  resp ← _request "PATCH" path json_body; json_of resp.

(* Health & Info *)
Definition get_health : io json :=
  try_except (get "/health")
    (λ e, match e with
          | HTTPStatusError message =>        (* str(e) *)
              mret (JObj (<["detail" := JStr message]>
                            {[ "status" := JStr "error" ]}))
          | _ => raise e
          end).

Definition get_info : io json := get "/info".

(* Users *)
Definition list_users : io json := get "/users".

Definition get_user (name : string) : io json := get ("/users/" +:+ name).

Definition create_user (name : string) (admin : option bool) : io json :=
  let admin := default false admin in
  post "/users"
    (Some (JObj (<["admin" := JBool admin]> {[ "name" := JStr name ]}))).

Definition delete_user (name : string) : io json :=
  delete ("/users/" +:+ name).

Definition modify_user (name : string) (admin : option bool) : io json :=
  let data : gmap string json := ∅ in
  let data := match admin with
              | Some a => <["admin" := JBool a]> data
              | None => data
              end in
  patch ("/users/" +:+ name) (Some (JObj data)).

(* Servers *)
Definition list_servers (user : string) : io json :=
  user_data ← get ("/users/" +:+ user);
  py_get user_data "servers" (JObj ∅).

Definition get_server (user : string) (server_name : option string)
  : io json :=
  let server_name := default "" server_name in
  get ("/users/" +:+ user +:+ "/servers/" +:+ server_name).

Definition start_server (user : string) (server_name : option string)
    (options : option (gmap string json)) : io json :=
  let server_name := default "" server_name in
  let json_data := if truthy_dict options then default ∅ options else ∅ in
  post ("/users/" +:+ user +:+ "/servers/" +:+ server_name)
       (Some (JObj json_data)).

Definition stop_server (user : string) (server_name : option string)
  : io json :=
  let server_name := default "" server_name in
  delete ("/users/" +:+ user +:+ "/servers/" +:+ server_name).

(* Groups *)
Definition list_groups : io json := get "/groups".

Definition get_group (name : string) : io json := get ("/groups/" +:+ name).

Definition create_group (name : string) (users : option (list string))
  : io json :=
  let data : gmap string json := {[ "name" := JStr name ]} in
  let data := if truthy_list users
              then <["users" := JStrs (default [] users)]> data
              else data in
  post "/groups" (Some (JObj data)).

Definition delete_group (name : string) : io json :=
  delete ("/groups/" +:+ name).

Definition add_user_to_group (group_name username : string) : io json :=
  post ("/groups/" +:+ group_name +:+ "/users")
       (Some (JObj {[ "users" := JStrs [username] ]})).

Definition remove_user_from_group (group_name username : string) : io json :=
  delete ("/groups/" +:+ group_name +:+ "/users/" +:+ username).

(* Services *)
Definition list_services : io json := get "/services".

Definition get_service (name : string) : io json :=
  get ("/services/" +:+ name).

(* Tokens *)
Definition list_tokens : io json := get "/tokens".

Definition get_token (token_id : string) : io json :=
  get ("/tokens/" +:+ token_id).

Definition create_token (user : string) (note : option string)
    (expires_in : option Z) : io json :=
  let data : gmap string json := ∅ in
  let data := if truthy_str note
              then <["note" := JStr (default "" note)]> data
              else data in
  let data := if truthy_int expires_in
              then <["expires_in" := JInt (default 0 expires_in)]> data
              else data in
  post ("/users/" +:+ user +:+ "/tokens") (Some (JObj data)).

Definition delete_token (user token_id : string) : io json :=
  delete ("/users/" +:+ user +:+ "/tokens/" +:+ token_id).

(* Admin operations *)
Definition shutdown_hub : io json := post "/shutdown" None.

Definition get_proxy : io json := get "/proxy".

Definition force_proxy_check : io json := post "/proxy" None.

(* Spawner operations *)
Definition cull_servers : io json := post "/cull" None.

(* Activity tracking *)
Definition user_activity (user : string) (servers : option (list string))
  : io json :=
  let data : gmap string json := ∅ in
  let data := if truthy_list servers
              then <["servers" := JStrs (default [] servers)]> data
              else data in
  post ("/users/" +:+ user +:+ "/activity") (Some (JObj data)).

Definition mutate (m : mutation) : io json :=
  match m with
  | CreateUser n a => create_user n a
  | DeleteUser n => delete_user n
  | ModifyUser n a => modify_user n a
  | StartServer u s o => start_server u s o
  | StopServer u s => stop_server u s
  | CreateGroup n us => create_group n us
  | DeleteGroup n => delete_group n
  | AddUserToGroup g u => add_user_to_group g u
  | RemoveUserFromGroup g u => remove_user_from_group g u
  | CreateToken u n e => create_token u n e
  | DeleteToken u i => delete_token u i
  | ShutdownHub => shutdown_hub
  | ForceProxyCheck => force_proxy_check
  | CullServers => cull_servers
  | UserActivity u s => user_activity u s
  end.

Definition fetch (q : query) : io json :=
  match q with
  | GetInfo => get_info
  | ListUsers => list_users
  | GetUser n => get_user n
  | GetServer u s => get_server u s
  | ListGroups => list_groups
  | GetGroup n => get_group n
  | ListServices => list_services
  | GetService n => get_service n
  | ListTokens => list_tokens
  | GetToken i => get_token i
  | GetProxy => get_proxy
  end.

(** The object the routes receive. *)
Definition client : Adapter.t := {|
  Adapter.close := close;
  Adapter.get_health := get_health;
  Adapter.get_info := get_info;
  Adapter.list_users := list_users;
  Adapter.get_user := get_user;
  Adapter.create_user := create_user;
  Adapter.delete_user := delete_user;
  Adapter.modify_user := modify_user;
  Adapter.list_servers := list_servers;
  Adapter.get_server := get_server;
  Adapter.start_server := start_server;
  Adapter.stop_server := stop_server;
  Adapter.list_groups := list_groups;
  Adapter.get_group := get_group;
  Adapter.create_group := create_group;
  Adapter.delete_group := delete_group;
  Adapter.add_user_to_group := add_user_to_group;
  Adapter.remove_user_from_group := remove_user_from_group;
  Adapter.list_services := list_services;
  Adapter.get_service := get_service;
  Adapter.list_tokens := list_tokens;
  Adapter.get_token := get_token;
  Adapter.create_token := create_token;
  Adapter.delete_token := delete_token;
  Adapter.shutdown_hub := shutdown_hub;
  Adapter.get_proxy := get_proxy;
  Adapter.force_proxy_check := force_proxy_check;
  Adapter.cull_servers := cull_servers;
  Adapter.user_activity := user_activity
|}.

End Upstream.
End HubClient.

(** ** models.py: the request bodies, after validation *)
Record CreateUserRequest : Type := {
  cu_name : string;
  cu_admin : bool                       (* Field(False) *)
}.

Record CreateGroupRequest : Type := {
  cg_name : string;
  cg_users : list string                (* Field([]) *)
}.

Record CreateTokenRequest : Type := {
  ct_note : option string;              (* Field(None) *)
  ct_expires_in : option Z;             (* Field(None) *)
  ct_roles : list string;               (* Field([]) *)
  ct_scopes : list string               (* Field([]) *)
}.

(** ** api/main.py *)
Module Api.

Definition deleted : json := JObj {[ "status" := JStr "deleted" ]}.
Definition removed : json := JObj {[ "status" := JStr "removed" ]}.

Section Handlers.
Variable client : Adapter.t.

(* Health & Info endpoints *)
Definition health : io json := Adapter.get_health client.

Definition hub_info : io json := Adapter.get_info client.

(* User management endpoints *)
Definition list_users : io json := Adapter.list_users client.

Definition get_user (username : string) : io json :=
  try_except (Adapter.get_user client username)
    (λ e, raise (HTTPException 404 ("User " +:+ username +:+ " not found"))).

Definition create_user (user_data : CreateUserRequest) : io json :=
  Adapter.create_user client (cu_name user_data) (Some (cu_admin user_data)).

Definition delete_user (username : string) : io json :=
  _ ← Adapter.delete_user client username;
  mret deleted.

Definition modify_user (username : string) (admin : option bool) : io json :=
  Adapter.modify_user client username admin.

(* Server management endpoints *)
Definition list_user_servers (username : string) : io json :=
  Adapter.list_servers client username.

Definition get_server (username : string) (server_name : option string)
  : io json :=
  let server_name := default "" server_name in
  Adapter.get_server client username (Some server_name).

Definition start_server (username : string) (server_name : option string)
  : io json :=
  let server_name := default "" server_name in
  Adapter.start_server client username (Some server_name) None.

Definition stop_server (username : string) (server_name : option string)
  : io json :=
  let server_name := default "" server_name in
  Adapter.stop_server client username (Some server_name).

(* Group management endpoints *)
Definition list_groups : io json := Adapter.list_groups client.

Definition get_group (group_name : string) : io json :=
  Adapter.get_group client group_name.

Definition create_group (group_data : CreateGroupRequest) : io json :=
  Adapter.create_group client (cg_name group_data)
    (Some (cg_users group_data)).

Definition delete_group (group_name : string) : io json :=
  _ ← Adapter.delete_group client group_name;
  mret deleted.

Definition add_user_to_group (group_name username : string) : io json :=
  Adapter.add_user_to_group client group_name username.

Definition remove_user_from_group (group_name username : string) : io json :=
  _ ← Adapter.remove_user_from_group client group_name username;
  mret removed.

(* Service endpoints *)
Definition list_services : io json := Adapter.list_services client.

Definition get_service (service_name : string) : io json :=
  Adapter.get_service client service_name.

(* Token management endpoints *)
Definition list_tokens : io json := Adapter.list_tokens client.

Definition create_token (username : string) (token_data : CreateTokenRequest)
  : io json :=
  Adapter.create_token client username (ct_note token_data)
    (ct_expires_in token_data).

Definition delete_token (username token_id : string) : io json :=
  _ ← Adapter.delete_token client username token_id;
  mret deleted.

(* Admin endpoints *)
Definition shutdown_hub : io json := Adapter.shutdown_hub client.

Definition get_proxy_info : io json := Adapter.get_proxy client.

Definition cull_servers : io json := Adapter.cull_servers client.

End Handlers.

(** The routing table: one constructor per decorated function, carrying
    the parameters FastAPI extracts from the path, the query and the
    body. The constructors take any string where the path has a
    parameter; which strings a request can put there is the matter of
    [match_template] below. *)
Inductive route : Type :=
  | Health
  | HubInfo
  | ListUsers
  | GetUser (username : string)
  | CreateUser (user_data : CreateUserRequest)
  | DeleteUser (username : string)
  | ModifyUser (username : string) (admin : option bool)
  | ListUserServers (username : string)
  | GetServer (username : string) (server_name : option string)
  | StartServer (username : string) (server_name : option string)
  | StopServer (username : string) (server_name : option string)
  | ListGroups
  | GetGroup (group_name : string)
  | CreateGroup (group_data : CreateGroupRequest)
  | DeleteGroup (group_name : string)
  | AddUserToGroup (group_name username : string)
  | RemoveUserFromGroup (group_name username : string)
  | ListServices
  | GetService (service_name : string)
  | ListTokens
  | CreateToken (username : string) (token_data : CreateTokenRequest)
  | DeleteToken (username token_id : string)
  | ShutdownHub
  | GetProxyInfo
  | CullServers.

(** [status_code=] of the decorator; FastAPI's default is 200. *)
Definition success_status (r : route) : Z :=
  match r with
  | CreateUser _ | StartServer _ _ | CreateGroup _ | CreateToken _ _ => 201
  | StopServer _ _ => 202
  | DeleteUser _ | DeleteGroup _ | RemoveUserFromGroup _ _
  | DeleteToken _ _ => 204
  | _ => 200
  end.

Definition endpoint (r : route) (client : Adapter.t) : io json :=
  match r with
  | Health => health client
  | HubInfo => hub_info client
  | ListUsers => list_users client
  | GetUser u => get_user client u
  | CreateUser d => create_user client d
  | DeleteUser u => delete_user client u
  | ModifyUser u a => modify_user client u a
  | ListUserServers u => list_user_servers client u
  | GetServer u s => get_server client u s
  | StartServer u s => start_server client u s
  | StopServer u s => stop_server client u s
  | ListGroups => list_groups client
  | GetGroup g => get_group client g
  | CreateGroup d => create_group client d
  | DeleteGroup g => delete_group client g
  | AddUserToGroup g u => add_user_to_group client g u
  | RemoveUserFromGroup g u => remove_user_from_group client g u
  | ListServices => list_services client
  | GetService s => get_service client s
  | ListTokens => list_tokens client
  | CreateToken u d => create_token client u d
  | DeleteToken u i => delete_token client u i
  | ShutdownHub => shutdown_hub client
  | GetProxyInfo => get_proxy_info client
  | CullServers => cull_servers client
  end.

(** The adapter coroutine a route awaits. *)
Definition adapter_call (r : route) (client : Adapter.t) : io json :=
  match r with
  | Health => Adapter.get_health client
  | HubInfo => Adapter.get_info client
  | ListUsers => Adapter.list_users client
  | GetUser u => Adapter.get_user client u
  | CreateUser d =>
      Adapter.create_user client (cu_name d) (Some (cu_admin d))
  | DeleteUser u => Adapter.delete_user client u
  | ModifyUser u a => Adapter.modify_user client u a
  | ListUserServers u => Adapter.list_servers client u
  | GetServer u s => Adapter.get_server client u (Some (default "" s))
  | StartServer u s =>
      Adapter.start_server client u (Some (default "" s)) None
  | StopServer u s => Adapter.stop_server client u (Some (default "" s))
  | ListGroups => Adapter.list_groups client
  | GetGroup g => Adapter.get_group client g
  | CreateGroup d =>
      Adapter.create_group client (cg_name d) (Some (cg_users d))
  | DeleteGroup g => Adapter.delete_group client g
  | AddUserToGroup g u => Adapter.add_user_to_group client g u
  | RemoveUserFromGroup g u => Adapter.remove_user_from_group client g u
  | ListServices => Adapter.list_services client
  | GetService s => Adapter.get_service client s
  | ListTokens => Adapter.list_tokens client
  | CreateToken u d =>
      Adapter.create_token client u (ct_note d) (ct_expires_in d)
  | DeleteToken u i => Adapter.delete_token client u i
  | ShutdownHub => Adapter.shutdown_hub client
  | GetProxyInfo => Adapter.get_proxy client
  | CullServers => Adapter.cull_servers client
  end.

(** The verb of the decorator ([@app.get], [@app.post], ...). *)
Definition http_method (r : route) : string :=
  match r with
  | Health | HubInfo | ListUsers | GetUser _ | ListUserServers _
  | GetServer _ _ | ListGroups | GetGroup _ | ListServices | GetService _
  | ListTokens | GetProxyInfo => "GET"
  | CreateUser _ | StartServer _ _ | CreateGroup _ | AddUserToGroup _ _
  | CreateToken _ _ | ShutdownHub | CullServers => "POST"
  | DeleteUser _ | StopServer _ _ | DeleteGroup _
  | RemoveUserFromGroup _ _ | DeleteToken _ _ => "DELETE"
  | ModifyUser _ _ => "PATCH"
  end.

(** The path of the decorator, with the path parameters filled in. *)
Definition url_path (r : route) : string :=
  match r with
  | Health => "/health"
  | HubInfo => "/info"
  | ListUsers | CreateUser _ => "/users"
  | GetUser u | DeleteUser u | ModifyUser u _ => "/users/" +:+ u
  | ListUserServers u => "/users/" +:+ u +:+ "/servers"
  | GetServer u s | StartServer u s | StopServer u s =>
      "/users/" +:+ u +:+ "/servers/" +:+ default "" s
  | ListGroups | CreateGroup _ => "/groups"
  | GetGroup g | DeleteGroup g => "/groups/" +:+ g
  | AddUserToGroup g _ => "/groups/" +:+ g +:+ "/users"
  | RemoveUserFromGroup g u => "/groups/" +:+ g +:+ "/users/" +:+ u
  | ListServices => "/services"
  | GetService n => "/services/" +:+ n
  | ListTokens => "/tokens"
  | CreateToken u _ => "/users/" +:+ u +:+ "/tokens"
  | DeleteToken u i => "/users/" +:+ u +:+ "/tokens/" +:+ i
  | ShutdownHub => "/admin/shutdown"
  | GetProxyInfo => "/admin/proxy"
  | CullServers => "/admin/cull"
  end.

(** Matching a request path against the path of a decorator, segment by
    segment: a literal segment must be equal, a parameter [{name}] takes
    one segment of at least one character (the framework's string
    convertor, [[^/]+]). *)
Inductive segment : Type :=
  | Lit (text : string)
  | Param (name : string).

(** [path.split("/")] *)
Fixpoint split_path (path : string) : list string :=
  match path with
  | EmptyString => [EmptyString]
  | String c rest =>
      if Ascii.eqb c "/"%char then EmptyString :: split_path rest
      else match split_path rest with
           | seg :: segs => String c seg :: segs
           | [] => [String c EmptyString]
           end
  end.

(** The path parameters, when the path matches. *)
Fixpoint match_template (template : list segment) (segments : list string)
  : option (list (string * string)) :=
  match template, segments with
  | [], [] => Some []
  | Lit text :: template', s :: segments' =>
      if String.eqb text s then match_template template' segments'
      else None
  | Param name :: template', s :: segments' =>
      match s with
      | EmptyString => None
      | String _ _ => cons (name, s) <$> match_template template' segments'
      end
  | _, _ => None
  end.

(** [/users/{username}/servers/{server_name}], the path of [get_server],
    [start_server] and [stop_server]. *)
Definition server_template : list segment :=
  [Lit ""; Lit "users"; Param "username"; Lit "servers";
   Param "server_name"].

(** [/users/{username}/servers], the path of [list_user_servers]. *)
Definition user_servers_template : list segment :=
  [Lit ""; Lit "users"; Param "username"; Lit "servers"].

(** What the handler leaves to the framework when it returns: the status
    code of the decorator and the value returned. The framework then
    validates and filters that value through the [response_model] of the
    route and sends no body with a 204; these steps are outside this
    development. *)
Record reply : Type := Reply {
  status : Z;
  payload : json
}.

Section Serving.
Variable hub : list event → request → exn + response.
Variable loads : string → string + json.
Variable status_message : response → string.

(** The dependency [get_client]: a generator that yields the adapter to
    the handler and resumes in its [finally] block; [use] is what runs
    between the two. *)
Definition get_client {A} (use : Adapter.t → io A) : io A :=
  _ ← HubClient.init;
  let client := HubClient.client hub loads status_message in
  try_finally (use client) (Adapter.close client).

Definition serve (r : route) : io reply :=
  get_client (λ client,
    v ← endpoint r client;
    mret (Reply (success_status r) v)).

End Serving.
End Api.

(** ** ui/app.py: the helper of the dashboard that has no widget in it *)
Module Ui.
Section Dashboard.

(** The adapter of the page, and Python's [str] on an exception. *)
Variable client : Adapter.t.
Variable str : exn → string.

Definition fetch_health : io json :=
  try_except (Adapter.get_health client)
    (λ e, mret (JObj (<["detail" := JStr (str e)]>
                        {[ "status" := JStr "error" ]}))).

End Dashboard.
End Ui.

(** ** Vocabulary of the statements *)

(** [sub] occurs in [s]. *)
Definition contains (s sub : string) : Prop :=
  ∃ pre post, s = pre +:+ sub +:+ post.

(** The fields of the JSON object a request carries. *)
Definition fields (r : request) : gset string :=
  match body r with
  | Some (JObj d) => dom d
  | _ => ∅
  end.

(** The field [k], when the optional argument behind it was passed. *)
Definition given {A} (o : option A) (k : string) : gset string :=
  match o with Some _ => {[ k ]} | None => ∅ end.

(** The payload fields for which the caller of an adapter coroutine passed
    a value: a positional argument that ends up in the body, an optional
    argument that was not left out, or a key of the options of
    [start_server]. *)
Definition supplied_fields (m : HubClient.mutation) : gset string :=
  match m with
  | HubClient.CreateUser _ admin => {[ "name" ]} ∪ given admin "admin"
  | HubClient.ModifyUser _ admin => given admin "admin"
  | HubClient.StartServer _ _ options => from_option dom ∅ options
  | HubClient.CreateGroup _ users => {[ "name" ]} ∪ given users "users"
  | HubClient.AddUserToGroup _ _ => {[ "users" ]}
  | HubClient.CreateToken _ note expires_in =>
      given note "note" ∪ given expires_in "expires_in"
  | HubClient.UserActivity _ servers => given servers "servers"
  | _ => ∅
  end.

(** The fields the adapter fills in by itself when the caller left them
    out. *)
Definition defaulted_fields (m : HubClient.mutation) : gset string :=
  match m with
  | HubClient.CreateUser _ None => {[ "admin" ]}
  | _ => ∅
  end.

(** The result of a health check that failed. *)
Definition degraded (d : string) : json :=
  JObj (<["detail" := JStr d]> {[ "status" := JStr "error" ]}).

(** [n] slashes. *)
Fixpoint slashes (n : nat) : string :=
  match n with
  | O => EmptyString
  | S n' => String "/"%char (slashes n')
  end.

(** ** Concrete hubs for the examples *)

(** The hub cannot be reached. *)
Definition hub_down : list event → request → exn + response :=
  λ _ _, inl (TransportError "All connection attempts failed").

(** The hub refuses every request. *)
Definition hub_unavailable : list event → request → exn + response :=
  λ _ _, inr (Response 503 "Service Unavailable").

(** The mock of [test_client.py::test_error_handling]: the request itself
    raises an [HTTPStatusError]. *)
Definition hub_mock_error : list event → request → exn + response :=
  λ _ _, inl (HTTPStatusError "Not found").

(** The hub accepts every request and answers with [text]. *)
Definition hub_ok (text : string) : list event → request → exn + response :=
  λ _ _, inr (Response 200 text).

Definition hub_no_content : list event → request → exn + response :=
  λ _ _, inr (Response 204 "").

Definition alice_servers : json :=
  JObj (<["gpu" := JObj {[ "ready" := JBool false ]}]>
          {[ "" := JObj {[ "ready" := JBool true ]} ]}).

Definition alice_record : gmap string json :=
  <["servers" := alice_servers]>
    (<["admin" := JBool false]> {[ "name" := JStr "alice" ]}).

(** A decoder defined on the bodies the examples use; like the real one it
    rejects the empty body. *)
Definition demo_loads (text : string) : string + json :=
  if String.eqb text "{}" then inr (JObj ∅)
  else if String.eqb text "<alice>" then inr (JObj alice_record)
  else inl "Expecting value: line 1 column 1 (char 0)".

Definition demo_message (resp : response) : string :=
  if status_code resp <? 500 then "Client error" else "Server error".

(** The hub does not know the resource. *)
Definition hub_not_found : list event → request → exn + response :=
  λ _ _, inr (Response 404 "Not Found").

(** [str] on the exceptions of this development: the message. *)
Definition demo_str (e : exn) : string :=
  match e with
  | HTTPStatusError m | TransportError m | JSONDecodeError m
  | AttributeError m => m
  | HTTPException _ d => d
  end.

(** Settings with the defaults of [settings.py]. *)
Definition demo_settings : Settings.t :=
  {| Settings.jupyterhub_url := "https://hub.example.com";
     Settings.api_token := "secret";
     Settings.verify_ssl := true;
     Settings.request_timeout := 30;
     Settings.api_host := "0.0.0.0";
     Settings.api_port := 8080;
     Settings.streamlit_port := 8501 |}.

Section Upstream_facts.
Variable hub : list event → request → exn + response.
Variable loads : string → string + json.
Variable status_message : response → string.

(** The outcome of [_request]: the response, once [raise_for_status] has
    let it through. *)
Definition answer (t : list event) (r : request) : exn + response :=
  match hub t r with
  | inl e => inl e
  | inr resp =>
      if HubClient.is_success resp then inr resp
      else inl (HTTPStatusError (status_message resp))
  end.

(** The outcome of [resp.json()]. *)
Definition decoded (resp : response) : exn + json :=
  match loads (content resp) with
  | inl m => inl (JSONDecodeError m)
  | inr v => inr v
  end.

(** The outcome of [HubClient.delete] on an accepted response. *)
Definition deleted_or_decoded (resp : response) : exn + json :=
  match content resp with
  | EmptyString => inr (JObj {[ "status" := JStr "deleted" ]})
  | String _ _ => decoded resp
  end.

Definition and_then {A B} (r : exn + A) (k : A → exn + B) : exn + B :=
  match r with inl e => inl e | inr a => k a end.

Abbreviation _request := (HubClient._request hub status_message).
Abbreviation get := (HubClient.get hub loads status_message).
Abbreviation post := (HubClient.post hub loads status_message).
Abbreviation patch := (HubClient.patch hub loads status_message).
Abbreviation delete := (HubClient.delete hub loads status_message).
Abbreviation mutate := (HubClient.mutate hub loads status_message).
Abbreviation get_health := (HubClient.get_health hub loads status_message).
Abbreviation hub_client := (HubClient.client hub loads status_message).
Abbreviation serve := (Api.serve hub loads status_message).

Lemma request_run method path b t :
  _request method path b t
  = (answer t (Request method path b), t ++ [Sent (Request method path b)]).
Proof.
  unfold HubClient._request, HubClient.client_request, answer, mbind, io_bind.
  destruct (hub t _) as [e|resp]; [reflexivity|].
  unfold HubClient.raise_for_status.
  destruct (HubClient.is_success resp); reflexivity.
Qed.

Lemma json_of_run resp t :
  HubClient.json_of loads resp t = (decoded resp, t).
Proof.
  unfold HubClient.json_of, decoded.
  destruct (loads _); reflexivity.
Qed.

Lemma get_run path t :
  get path t
  = (and_then (answer t (Request "GET" path None)) decoded,
     t ++ [Sent (Request "GET" path None)]).
Proof.
  unfold HubClient.get, mbind, io_bind. rewrite request_run.
  destruct (answer _ _); [reflexivity|apply json_of_run].
Qed.

Lemma post_run path b t :
  post path b t
  = (and_then (answer t (Request "POST" path b)) decoded,
     t ++ [Sent (Request "POST" path b)]).
Proof.
  unfold HubClient.post, mbind, io_bind. rewrite request_run.
  destruct (answer _ _); [reflexivity|apply json_of_run].
Qed.

Lemma patch_run path b t :
  patch path b t
  = (and_then (answer t (Request "PATCH" path b)) decoded,
     t ++ [Sent (Request "PATCH" path b)]).
Proof.
  unfold HubClient.patch, mbind, io_bind. rewrite request_run.
  destruct (answer _ _); [reflexivity|apply json_of_run].
Qed.

Lemma delete_run path t :
  delete path t
  = (and_then (answer t (Request "DELETE" path None)) deleted_or_decoded,
     t ++ [Sent (Request "DELETE" path None)]).
Proof.
  unfold HubClient.delete, mbind, io_bind. rewrite request_run.
  destruct (answer _ _) as [e|resp]; [reflexivity|].
  unfold and_then, deleted_or_decoded.
  destruct (content resp); [reflexivity|apply json_of_run].
Qed.

Lemma answer_ok t r resp :
  hub t r = inr resp → HubClient.is_success resp = true →
  answer t r = inr resp.
Proof. intros H1 H2. unfold answer. rewrite H1, H2. reflexivity. Qed.

Lemma answer_rejected t r resp :
  hub t r = inr resp → HubClient.is_success resp = false →
  answer t r = inl (HTTPStatusError (status_message resp)).
Proof. intros H1 H2. unfold answer. rewrite H1, H2. reflexivity. Qed.

Lemma answer_raised t r e : hub t r = inl e → answer t r = inl e.
Proof. intros H1. unfold answer. rewrite H1. reflexivity. Qed.


(** *** What each mutating coroutine sends *)

Ltac run_step :=
  first [ rewrite post_run | rewrite patch_run | rewrite delete_run
        | rewrite get_run ].

Lemma mutate_sends m t :
  ∃ req, snd (mutate m t) = t ++ [Sent req]
         ∧ fields req ⊆ supplied_fields m ∪ defaulted_fields m.
Proof.
  destruct m as [n a|n|n a|u s o|u s|n us|n|g u|g u|u n e|u i| | | |u ss];
    unfold HubClient.mutate.
  - unfold HubClient.create_user. run_step. eexists; split; [reflexivity|].
    unfold fields; cbn [body]. rewrite dom_insert_L, dom_singleton_L.
    destruct a; cbn [supplied_fields defaulted_fields given]; set_solver.
  - unfold HubClient.delete_user. run_step. eexists; split; [reflexivity|].
    unfold fields; cbn [body]. set_solver.
  - unfold HubClient.modify_user. run_step. eexists; split; [reflexivity|].
    unfold fields; cbn [body].
    destruct a; cbn [supplied_fields given];
      [rewrite dom_insert_L|]; rewrite dom_empty_L; set_solver.
  - unfold HubClient.start_server. run_step. eexists; split; [reflexivity|].
    unfold fields; cbn [body].
    destruct (truthy_dict o), o; cbn [default from_option supplied_fields];
      rewrite ?dom_empty_L; set_solver.
  - unfold HubClient.stop_server. run_step. eexists; split; [reflexivity|].
    unfold fields; cbn [body]. set_solver.
  - unfold HubClient.create_group. run_step. eexists; split; [reflexivity|].
    unfold fields; cbn [body].
    destruct us as [[|u0 us]|]; cbn [truthy_list supplied_fields given];
      rewrite ?dom_insert_L, dom_singleton_L; set_solver.
  - unfold HubClient.delete_group. run_step. eexists; split; [reflexivity|].
    unfold fields; cbn [body]. set_solver.
  - unfold HubClient.add_user_to_group. run_step.
    eexists; split; [reflexivity|].
    unfold fields; cbn [body]. rewrite dom_singleton_L.
    cbn [supplied_fields]. set_solver.
  - unfold HubClient.remove_user_from_group. run_step.
    eexists; split; [reflexivity|].
    unfold fields; cbn [body]. set_solver.
  - unfold HubClient.create_token. run_step. eexists; split; [reflexivity|].
    unfold fields; cbn [body].
    destruct n as [[|c n]|], e as [e|];
      cbn [truthy_str truthy_int negb supplied_fields given];
      try destruct (e =? 0); cbn [negb];
      rewrite ?dom_insert_L, dom_empty_L; set_solver.
  - unfold HubClient.delete_token. run_step. eexists; split; [reflexivity|].
    unfold fields; cbn [body]. set_solver.
  - unfold HubClient.shutdown_hub. run_step. eexists; split; [reflexivity|].
    unfold fields; cbn [body]. set_solver.
  - unfold HubClient.force_proxy_check. run_step.
    eexists; split; [reflexivity|].
    unfold fields; cbn [body]. set_solver.
  - unfold HubClient.cull_servers. run_step. eexists; split; [reflexivity|].
    unfold fields; cbn [body]. set_solver.
  - unfold HubClient.user_activity. run_step. eexists; split; [reflexivity|].
    unfold fields; cbn [body].
    destruct ss as [[|s0 ss]|]; cbn [truthy_list supplied_fields given];
      rewrite ?dom_insert_L, dom_empty_L; set_solver.
Qed.


(** *** The health check *)

(** C1 (amended). [get_health] recovers from an upstream rejection only:
    when the hub answers with a status outside 200..299, or when the
    request itself raises an [HTTPStatusError], the coroutine does not
    raise and returns [{"status": "error", "detail": d}], [d] being the
    text of that error; when the hub answers 2xx it returns the decoded
    body unchanged; a transport-level failure is not caught and reaches
    the caller as raised. *)
Theorem get_health_recovers_rejections t :
  let req := Request "GET" "/health" None in
  (∀ resp, hub t req = inr resp → HubClient.is_success resp = false →
     fst (get_health t) = inr (degraded (status_message resp)))
  ∧ (∀ m, hub t req = inl (HTTPStatusError m) →
       fst (get_health t) = inr (degraded m))
  ∧ (∀ resp v, hub t req = inr resp → HubClient.is_success resp = true →
       loads (content resp) = inr v → fst (get_health t) = inr v)
  ∧ (∀ m, hub t req = inl (TransportError m) →
       fst (get_health t) = inl (TransportError m)).
Proof.
  intros req. unfold HubClient.get_health, try_except.
  rewrite get_run. fold req.
  repeat split.
  - intros resp H1 H2. rewrite (answer_rejected _ _ _ H1 H2). reflexivity.
  - intros m H1. rewrite (answer_raised _ _ _ H1). reflexivity.
  - intros resp v H1 H2 H3. rewrite (answer_ok _ _ _ H1 H2).
    unfold and_then, decoded. rewrite H3. reflexivity.
  - intros m H1. rewrite (answer_raised _ _ _ H1). reflexivity.
Qed.

(** *** Payloads *)

(** C3 (amended). Every coroutine that issues POST, PATCH or DELETE sends
    exactly one request, and the JSON object it carries has only fields
    the caller supplied, with one exception: [create_user] always sends
    [admin], as [false] when the caller left the flag out. *)
Theorem mutations_send_supplied_fields t :
  (∀ m, ∃ req, snd (mutate m t) = t ++ [Sent req]
               ∧ fields req ⊆ supplied_fields m ∪ defaulted_fields m)
  ∧ (∀ name,
       snd (mutate (HubClient.CreateUser name None) t)
       = t ++ [Sent (Request "POST" "/users"
                 (Some (JObj (<["admin" := JBool false]>
                                {[ "name" := JStr name ]}))))]).
Proof.
  split; [intros m; apply mutate_sends|].
  intros name. unfold HubClient.mutate, HubClient.create_user.
  rewrite post_run. reflexivity.
Qed.

(** C4. The token-creation route makes the adapter send one POST to the
    user's [tokens] resource whose body has no field besides [note] and
    [expires_in], each present only when the request model has it; the
    [roles] and [scopes] of the request model have no influence on what
    is sent. *)
Theorem create_token_payload username token_data t :
  ∃ d,
    snd (Api.create_token hub_client username token_data t)
    = t ++ [Sent (Request "POST" ("/users/" +:+ username +:+ "/tokens")
                    (Some (JObj d)))]
    ∧ dom d ⊆ given (ct_note token_data) "note"
              ∪ given (ct_expires_in token_data) "expires_in"
    ∧ ("roles" ∉ dom d) ∧ ("scopes" ∉ dom d)
    ∧ ∀ roles scopes,
        snd (Api.create_token hub_client username
               {| ct_note := ct_note token_data;
                  ct_expires_in := ct_expires_in token_data;
                  ct_roles := roles; ct_scopes := scopes |} t)
        = snd (Api.create_token hub_client username token_data t).
Proof.
  unfold Api.create_token; cbn [Adapter.create_token HubClient.client].
  unfold HubClient.create_token.
  cbn [ct_note ct_expires_in].
  eexists. split; [rewrite post_run; reflexivity|].
  destruct (ct_note token_data) as [[|c n]|],
           (ct_expires_in token_data) as [e|];
    cbn [truthy_str truthy_int negb given];
    try destruct (e =? 0); cbn [negb];
    rewrite ?dom_insert_L, dom_empty_L;
    repeat split; eauto; set_solver.
Qed.

(** C5. Each coroutine built on DELETE sends one bodiless DELETE; when the
    hub accepts it, an empty response body gives the literal
    [{"status": "deleted"}] whatever the decoder would make of an empty
    payload, and a non-empty body gives what decoding it gives. *)
Theorem deletes_synthesise_status m t :
  HubClient.is_delete m = true →
  ∃ p,
    snd (mutate m t) = t ++ [Sent (Request "DELETE" p None)]
    ∧ ∀ resp,
        hub t (Request "DELETE" p None) = inr resp →
        HubClient.is_success resp = true →
        (content resp = "" →
           fst (mutate m t) = inr (JObj {[ "status" := JStr "deleted" ]}))
        ∧ (content resp ≠ "" → fst (mutate m t) = decoded resp).
Proof.
  intros Hm.
  destruct m; try discriminate Hm; unfold HubClient.mutate;
    [ unfold HubClient.delete_user | unfold HubClient.stop_server
    | unfold HubClient.delete_group
    | unfold HubClient.remove_user_from_group
    | unfold HubClient.delete_token ];
    rewrite delete_run; eexists; (split; [reflexivity|]);
    intros resp H1 H2; rewrite (answer_ok _ _ _ H1 H2);
    unfold and_then, deleted_or_decoded;
    (split; intros H3;
       [ rewrite H3; reflexivity
       | destruct (content resp); [congruence|reflexivity] ]).
Qed.

Lemma list_servers_trace user t :
  snd (HubClient.list_servers hub loads status_message user t)
  = t ++ [Sent (Request "GET" ("/users/" +:+ user) None)].
Proof.
  unfold HubClient.list_servers, mbind, io_bind. rewrite get_run.
  destruct (and_then _ _) as [e|v]; [reflexivity|].
  unfold py_get. destruct v; reflexivity.
Qed.

(** C6. [list_servers] sends exactly one request, the GET of the user
    record, whatever comes back; and when the hub answers with a record
    that has a [servers] entry, the coroutine returns that entry as it
    stands. *)
Theorem list_servers_reads_user_record user t :
  let req := Request "GET" ("/users/" +:+ user) None in
  snd (HubClient.list_servers hub loads status_message user t)
  = t ++ [Sent req]
  ∧ ∀ resp record servers,
      hub t req = inr resp →
      HubClient.is_success resp = true →
      loads (content resp) = inr (JObj record) →
      record !! "servers" = Some servers →
      fst (HubClient.list_servers hub loads status_message user t)
      = inr servers.
Proof.
  intros req. split; [apply list_servers_trace|].
  intros resp record servers H1 H2 H3 H4.
  unfold HubClient.list_servers, mbind, io_bind. rewrite get_run. fold req.
  rewrite (answer_ok _ _ _ H1 H2). unfold and_then, decoded. rewrite H3.
  unfold py_get. rewrite H4. reflexivity.
Qed.

(** C7. Adding a user to a group posts [{"users": [u]}] to the group's
    [users] resource; removing a user sends a bodiless DELETE to the
    user's own resource under the group; creating a group with initial
    members sends a single POST of [{"name": g, "users": members}]. *)
Theorem group_membership_shapes g u v members t :
  members ≠ [] →
  snd (HubClient.add_user_to_group hub loads status_message g u t)
  = t ++ [Sent (Request "POST" ("/groups/" +:+ g +:+ "/users")
                  (Some (JObj {[ "users" := JList [JStr u] ]})))]
  ∧ snd (HubClient.remove_user_from_group hub loads status_message g v t)
    = t ++ [Sent (Request "DELETE" ("/groups/" +:+ g +:+ "/users/" +:+ v)
                    None)]
  ∧ snd (HubClient.create_group hub loads status_message g (Some members) t)
    = t ++ [Sent (Request "POST" "/groups"
                    (Some (JObj (<["users" := JList (JStr <$> members)]>
                                   {[ "name" := JStr g ]}))))].
Proof.
  intros Hne.
  unfold HubClient.add_user_to_group, HubClient.remove_user_from_group,
    HubClient.create_group.
  rewrite !post_run, delete_run.
  destruct members as [|u0 us]; [congruence|]. repeat split.
Qed.

(** C10. The adapter tests its optional arguments for truth, not for
    [None]: an empty note, a zero expiry and an empty member list are left
    out like missing ones, so no call of [create_token] sends an empty
    [note] or a zero [expires_in], and no call of [create_group] sends an
    empty [users]. *)
Theorem falsy_arguments_are_dropped user name t :
  snd (HubClient.create_token hub loads status_message user
         (Some "") (Some 0) t)
  = t ++ [Sent (Request "POST" ("/users/" +:+ user +:+ "/tokens")
                  (Some (JObj ∅)))]
  ∧ snd (HubClient.create_group hub loads status_message name (Some []) t)
    = t ++ [Sent (Request "POST" "/groups"
                    (Some (JObj {[ "name" := JStr name ]})))]
  ∧ (∀ note expires_in, ∃ d,
       snd (HubClient.create_token hub loads status_message user
              note expires_in t)
       = t ++ [Sent (Request "POST" ("/users/" +:+ user +:+ "/tokens")
                       (Some (JObj d)))]
       ∧ d !! "note" ≠ Some (JStr "")
       ∧ d !! "expires_in" ≠ Some (JInt 0))
  ∧ (∀ users, ∃ d,
       snd (HubClient.create_group hub loads status_message name users t)
       = t ++ [Sent (Request "POST" "/groups" (Some (JObj d)))]
       ∧ d !! "users" ≠ Some (JList [])).
Proof.
  unfold HubClient.create_token, HubClient.create_group.
  repeat split.
  - rewrite post_run. reflexivity.
  - rewrite post_run. reflexivity.
  - intros note expires_in. rewrite post_run.
    eexists; split; [reflexivity|].
    destruct note as [[|c n]|], expires_in as [e|];
      cbn [truthy_str truthy_int negb default];
      try (destruct (Z.eqb_spec e 0); cbn [negb]);
      split; simplify_map_eq; congruence.
  - intros users. rewrite post_run.
    eexists; split; [reflexivity|].
    destruct users as [[|u0 us]|]; cbn [truthy_list default];
      simplify_map_eq; discriminate.
Qed.


(** *** Serving a request *)

Lemma get_health_trace t :
  snd (get_health t) = t ++ [Sent (Request "GET" "/health" None)].
Proof.
  unfold HubClient.get_health, try_except. rewrite get_run.
  destruct (and_then _ _) as [[]|v]; reflexivity.
Qed.

Lemma endpoint_sends_one r t :
  ∃ req, snd (Api.endpoint r hub_client t) = t ++ [Sent req].
Proof.
  destruct r; cbn [Api.endpoint];
    unfold Api.health, Api.hub_info, Api.list_users, Api.get_user,
      Api.create_user, Api.delete_user, Api.modify_user,
      Api.list_user_servers, Api.get_server, Api.start_server,
      Api.stop_server, Api.list_groups, Api.get_group, Api.create_group,
      Api.delete_group, Api.add_user_to_group, Api.remove_user_from_group,
      Api.list_services, Api.get_service, Api.list_tokens,
      Api.create_token, Api.delete_token, Api.shutdown_hub,
      Api.get_proxy_info, Api.cull_servers;
    cbn [HubClient.client Adapter.get_health Adapter.get_info
         Adapter.list_users Adapter.get_user Adapter.create_user
         Adapter.delete_user Adapter.modify_user Adapter.list_servers
         Adapter.get_server Adapter.start_server Adapter.stop_server
         Adapter.list_groups Adapter.get_group Adapter.create_group
         Adapter.delete_group Adapter.add_user_to_group
         Adapter.remove_user_from_group Adapter.list_services
         Adapter.get_service Adapter.list_tokens Adapter.get_token
         Adapter.create_token Adapter.delete_token Adapter.shutdown_hub
         Adapter.get_proxy Adapter.force_proxy_check Adapter.cull_servers];
    try (eexists; apply get_health_trace);
    try (eexists; apply list_servers_trace);
    unfold HubClient.get_info, HubClient.list_users, HubClient.get_user,
      HubClient.create_user, HubClient.delete_user, HubClient.modify_user,
      HubClient.get_server, HubClient.start_server, HubClient.stop_server,
      HubClient.list_groups, HubClient.get_group, HubClient.create_group,
      HubClient.delete_group, HubClient.add_user_to_group,
      HubClient.remove_user_from_group, HubClient.list_services,
      HubClient.get_service, HubClient.list_tokens, HubClient.create_token,
      HubClient.delete_token, HubClient.shutdown_hub, HubClient.get_proxy,
      HubClient.cull_servers, try_except, mbind, io_bind;
    run_step; eexists;
    destruct (and_then _ _); reflexivity.
Qed.

Lemma serve_run r t :
  serve r t
  = (match fst (Api.endpoint r hub_client (t ++ [Opened])) with
     | inl e => inl e
     | inr v => inr (Api.Reply (Api.success_status r) v)
     end,
     snd (Api.endpoint r hub_client (t ++ [Opened])) ++ [Closed]).
Proof.
  unfold Api.serve, Api.get_client, HubClient.init, emit, try_finally,
    mbind, io_bind, mret, io_ret.
  cbn [HubClient.client Adapter.close]. unfold HubClient.close, emit.
  destruct (Api.endpoint r hub_client (t ++ [Opened])) as [[e|v] t1];
    reflexivity.
Qed.

(** C9. Serving a request opens the adapter's connection once, lets the
    handler send its request, and closes the connection once, last; the
    trace has this shape whether the handler returned or raised. *)
Theorem client_closed_exactly_once r t :
  ∃ req, snd (serve r t) = t ++ [Opened; Sent req; Closed].
Proof.
  destruct (endpoint_sends_one r (t ++ [Opened])) as [req Hreq].
  exists req. rewrite serve_run. cbn [snd]. rewrite Hreq.
  rewrite <- !app_assoc. reflexivity.
Qed.

End Upstream_facts.

(** *** The routes and the adapter's failures *)

(** C2. When the adapter coroutine a route awaits raises, the get-user
    route raises [HTTPException] with status 404 and a detail in which the
    requested username occurs; every other route lets the very exception
    of the adapter through. *)
Theorem get_user_is_the_only_translation (client : Adapter.t) r t e t' :
  Api.adapter_call r client t = (inl e, t') →
  match r with
  | Api.GetUser username =>
      ∃ detail,
        Api.endpoint r client t = (inl (HTTPException 404 detail), t')
        ∧ contains detail username
  | _ => Api.endpoint r client t = (inl e, t')
  end.
Proof.
  intros H.
  destruct r; cbn [Api.endpoint Api.adapter_call] in *;
    unfold Api.health, Api.hub_info, Api.list_users, Api.get_user,
      Api.create_user, Api.delete_user, Api.modify_user,
      Api.list_user_servers, Api.get_server, Api.start_server,
      Api.stop_server, Api.list_groups, Api.get_group, Api.create_group,
      Api.delete_group, Api.add_user_to_group, Api.remove_user_from_group,
      Api.list_services, Api.get_service, Api.list_tokens,
      Api.create_token, Api.delete_token, Api.shutdown_hub,
      Api.get_proxy_info, Api.cull_servers, try_except, mbind, io_bind;
    try rewrite H; try reflexivity.
  eexists; split; [reflexivity|].
  exists "User ", " not found". reflexivity.
Qed.

(** *** The URL of the default server *)

Lemma split_path_not_nil path : Api.split_path path ≠ [].
Proof.
  destruct path as [|c rest]; cbn [Api.split_path]; [discriminate|].
  destruct (Ascii.eqb c "/"%char); [discriminate|].
  destruct (Api.split_path rest); discriminate.
Qed.

Lemma split_path_final_slash path :
  Api.split_path (path +:+ "/") = Api.split_path path ++ [""].
Proof.
  induction path as [|c rest IH]; [reflexivity|].
  simpl. rewrite IH.
  destruct (Ascii.eqb c "/"%char); [reflexivity|].
  destruct (Api.split_path rest) as [|seg segs] eqn:Hsplit;
    [exfalso; exact (split_path_not_nil rest Hsplit)|reflexivity].
Qed.

Lemma match_template_empty_segment template name segments :
  Api.match_template (template ++ [Api.Param name]) (segments ++ [""])
  = None.
Proof.
  revert segments.
  induction template as [|[text|name'] template IH]; intros segments.
  - destruct segments as [|s segments]; [reflexivity|].
    cbn [app Api.match_template].
    destruct s; [reflexivity|]. destruct segments; reflexivity.
  - destruct segments as [|s segments]; cbn [app Api.match_template].
    + destruct (String.eqb text ""); [|reflexivity].
      destruct template as [|[]]; reflexivity.
    + destruct (String.eqb text s); [apply IH|reflexivity].
  - destruct segments as [|s segments]; cbn [app Api.match_template];
      [reflexivity|].
    destruct s; [reflexivity|]. rewrite IH. reflexivity.
Qed.

Lemma append_final_slash (a b : string) :
  a +:+ b +:+ "/" = (a +:+ b) +:+ "/".
Proof.
  induction a as [|c a IH]; [reflexivity|].
  change (String c (a +:+ b +:+ "/") = String c ((a +:+ b) +:+ "/")).
  rewrite IH. reflexivity.
Qed.

(** C8 (defect of the code). The start and stop routes are declared on
    [/users/{username}/servers/{server_name}], and the URL that names the
    default server ends in an empty segment, which a path parameter does
    not take: for no user does that URL match the path of the two routes,
    so no handler runs and nothing answers 201 or 202 there. The URL of a
    named server does match, and the URL without its last slash is the
    one of the list-servers route. *)
Theorem default_server_url_reaches_no_handler username :
  Api.url_path (Api.StartServer username (Some ""))
  = "/users/" +:+ username +:+ "/servers/"
  ∧ Api.url_path (Api.StopServer username (Some ""))
    = "/users/" +:+ username +:+ "/servers/"
  ∧ Api.match_template Api.server_template
      (Api.split_path ("/users/" +:+ username +:+ "/servers/"))
    = None
  ∧ Api.match_template Api.server_template
      (Api.split_path (Api.url_path (Api.StartServer "alice" (Some "gpu"))))
    = Some [("username", "alice"); ("server_name", "gpu")]
  ∧ Api.match_template Api.user_servers_template
      (Api.split_path "/users/alice/servers")
    = Some [("username", "alice")].
Proof.
  split; [reflexivity|]. split; [reflexivity|].
  split; [|split; reflexivity].
  change ("/users/" +:+ username +:+ "/servers/")
    with ("/users/" +:+ username +:+ "/servers" +:+ "/").
  rewrite (append_final_slash username "/servers").
  rewrite (append_final_slash "/users/" (username +:+ "/servers")).
  rewrite split_path_final_slash.
  apply (match_template_empty_segment
           [Api.Lit ""; Api.Lit "users"; Api.Param "username";
            Api.Lit "servers"] "server_name").
Qed.

(** ** The statements at concrete inputs *)

(** The health check against a hub that answers 503, against the mock
    that raises [HTTPStatusError], against a hub that answers 200, and
    against an unreachable hub. *)
Lemma get_health_recovers_rejections_witness :
  fst (HubClient.get_health hub_unavailable demo_loads demo_message [])
  = inr (degraded "Server error")
  ∧ fst (HubClient.get_health hub_mock_error demo_loads demo_message [])
    = inr (degraded "Not found")
  ∧ fst (HubClient.get_health (hub_ok "{}") demo_loads demo_message [])
    = inr (JObj ∅)
  ∧ fst (HubClient.get_health hub_down demo_loads demo_message [])
    = inl (TransportError "All connection attempts failed").
Proof.
  split; [|split; [|split]].
  - destruct (get_health_recovers_rejections
                hub_unavailable demo_loads demo_message []) as (H & _).
    apply (H (Response 503 "Service Unavailable")); reflexivity.
  - destruct (get_health_recovers_rejections
                hub_mock_error demo_loads demo_message []) as (_ & H & _).
    apply H; reflexivity.
  - destruct (get_health_recovers_rejections
                (hub_ok "{}") demo_loads demo_message []) as (_ & _ & H & _).
    apply (H (Response 200 "{}")); reflexivity.
  - destruct (get_health_recovers_rejections
                hub_down demo_loads demo_message []) as (_ & _ & _ & H).
    apply H; reflexivity.
Defined.

(** C1, as stated, fails: with the hub unreachable [get_health] raises the
    transport error instead of returning a degraded result. *)
Lemma get_health_transport_failure_raises :
  outcome (HubClient.get_health hub_down demo_loads demo_message)
  = inl (TransportError "All connection attempts failed")
  ∧ ¬ ∃ v, outcome (HubClient.get_health hub_down demo_loads demo_message)
           = inr v.
Proof.
  split; [reflexivity|]. intros [v Hv]. vm_compute in Hv. discriminate Hv.
Qed.

(** With the hub unreachable, looking up a user gives the 404 and looking
    up a group gives the transport error itself. *)
Lemma get_user_is_the_only_translation_witness :
  (∃ detail,
     Api.endpoint (Api.GetUser "nonexistent")
       (HubClient.client hub_down demo_loads demo_message) []
     = (inl (HTTPException 404 detail),
        [Sent (Request "GET" "/users/nonexistent" None)])
     ∧ contains detail "nonexistent")
  ∧ Api.endpoint (Api.GetGroup "nonexistent")
      (HubClient.client hub_down demo_loads demo_message) []
    = (inl (TransportError "All connection attempts failed"),
       [Sent (Request "GET" "/groups/nonexistent" None)]).
Proof.
  split.
  - apply (get_user_is_the_only_translation
             (HubClient.client hub_down demo_loads demo_message)
             (Api.GetUser "nonexistent") []
             (TransportError "All connection attempts failed")).
    reflexivity.
  - apply (get_user_is_the_only_translation
             (HubClient.client hub_down demo_loads demo_message)
             (Api.GetGroup "nonexistent") []).
    reflexivity.
Defined.

(** C3, as stated, fails: [create_user] called without the admin flag
    sends [{"name": "alice", "admin": false}], a body with an [admin]
    field the caller did not supply. *)
Lemma create_user_sends_default_admin :
  ∃ req,
    requests (trace_of (HubClient.mutate hub_down demo_loads demo_message
                          (HubClient.CreateUser "alice" None)))
    = [req]
    ∧ body req = Some (JObj (<["admin" := JBool false]>
                               {[ "name" := JStr "alice" ]}))
    ∧ ("admin" ∈ fields req)
    ∧ ("admin" ∉ supplied_fields (HubClient.CreateUser "alice" None))
    ∧ ¬ (fields req ⊆ supplied_fields (HubClient.CreateUser "alice" None)).
Proof.
  eexists. split; [reflexivity|]. split; [reflexivity|].
  unfold fields; cbn [body supplied_fields given].
  rewrite dom_insert_L, dom_singleton_L.
  split; [set_solver|]. split.
  - set_unfold. intros [H|[]]. discriminate H.
  - intros H. specialize (H "admin"). set_unfold.
    destruct H as [H|[]]; [tauto|discriminate H].
Qed.

(** Deleting a user when the hub answers 204 with no body: the result is
    the literal, although the decoder rejects the empty body. *)
Lemma deletes_synthesise_status_witness :
  HubClient.mutate hub_no_content demo_loads demo_message
    (HubClient.DeleteUser "alice") []
  = (inr (JObj {[ "status" := JStr "deleted" ]}),
     [Sent (Request "DELETE" "/users/alice" None)])
  ∧ demo_loads "" = inl "Expecting value: line 1 column 1 (char 0)".
Proof.
  split; [|reflexivity].
  destruct (deletes_synthesise_status hub_no_content demo_loads demo_message
              (HubClient.DeleteUser "alice") [] eq_refl) as (p & Htr & Hres).
  destruct (Hres (Response 204 "") eq_refl eq_refl) as (Hempty & _).
  specialize (Hempty eq_refl).
  rewrite (surjective_pairing (HubClient.mutate _ _ _ _ _)).
  rewrite Hempty. reflexivity.
Defined.

(** The servers of a user whose record maps the names [""] and ["gpu"]. *)
Lemma list_servers_reads_user_record_witness :
  HubClient.list_servers (hub_ok "<alice>") demo_loads demo_message
    "alice" []
  = (inr alice_servers, [Sent (Request "GET" "/users/alice" None)]).
Proof.
  destruct (list_servers_reads_user_record
              (hub_ok "<alice>") demo_loads demo_message "alice" [])
    as (Htr & Hres).
  rewrite (surjective_pairing (HubClient.list_servers _ _ _ _ _)).
  rewrite Htr.
  rewrite (Hres (Response 200 "<alice>") alice_record alice_servers);
    reflexivity.
Defined.

(** The group ["scientists"]: created with alice and bob, carol added,
    bob removed. *)
Lemma group_membership_shapes_witness :
  snd (HubClient.add_user_to_group hub_down demo_loads demo_message
         "scientists" "carol" [])
  = [Sent (Request "POST" "/groups/scientists/users"
             (Some (JObj {[ "users" := JList [JStr "carol"] ]})))]
  ∧ snd (HubClient.remove_user_from_group hub_down demo_loads demo_message
           "scientists" "bob" [])
    = [Sent (Request "DELETE" "/groups/scientists/users/bob" None)]
  ∧ snd (HubClient.create_group hub_down demo_loads demo_message
           "scientists" (Some ["alice"; "bob"]) [])
    = [Sent (Request "POST" "/groups"
               (Some (JObj (<["users" := JList [JStr "alice"; JStr "bob"]]>
                              {[ "name" := JStr "scientists" ]}))))].
Proof.
  apply (group_membership_shapes hub_down demo_loads demo_message
           "scientists" "carol" "bob" ["alice"; "bob"] []).
  discriminate.
Defined.

(** ** Further properties of the adapter *)

Section Adapter_facts.
Variable hub : list event → request → exn + response.
Variable loads : string → string + json.
Variable status_message : response → string.

Abbreviation answer_ := (answer hub status_message).
Abbreviation decoded_ := (decoded loads).
Abbreviation fetch := (HubClient.fetch hub loads status_message).
Abbreviation mutate := (HubClient.mutate hub loads status_message).
Abbreviation get_health := (HubClient.get_health hub loads status_message).
Abbreviation list_servers :=
  (HubClient.list_servers hub loads status_message).
Abbreviation start_server :=
  (HubClient.start_server hub loads status_message).

Ltac run :=
  first [ rewrite post_run | rewrite patch_run | rewrite delete_run
        | rewrite get_run ].

Ltac unfold_adapter :=
  unfold HubClient.get_info, HubClient.list_users, HubClient.get_user,
    HubClient.create_user, HubClient.delete_user, HubClient.modify_user,
    HubClient.get_server, HubClient.start_server, HubClient.stop_server,
    HubClient.list_groups, HubClient.get_group, HubClient.create_group,
    HubClient.delete_group, HubClient.add_user_to_group,
    HubClient.remove_user_from_group, HubClient.list_services,
    HubClient.get_service, HubClient.list_tokens, HubClient.get_token,
    HubClient.create_token, HubClient.delete_token, HubClient.shutdown_hub,
    HubClient.get_proxy, HubClient.force_proxy_check,
    HubClient.cull_servers, HubClient.user_activity.

Lemma decoded_after_ok t r resp :
  hub t r = inr resp → HubClient.is_success resp = true →
  and_then (answer_ t r) decoded_ = decoded_ resp.
Proof. intros H1 H2. rewrite (answer_ok _ _ _ _ _ H1 H2). reflexivity. Qed.

Lemma failed_after_raise {A} t r e (k : response → exn + A) :
  hub t r = inl e → and_then (answer_ t r) k = inl e.
Proof. intros H1. rewrite (answer_raised _ _ _ _ _ H1). reflexivity. Qed.

Lemma failed_after_rejection {A} t r resp (k : response → exn + A) :
  hub t r = inr resp → HubClient.is_success resp = false →
  and_then (answer_ t r) k = inl (HTTPStatusError (status_message resp)).
Proof.
  intros H1 H2. rewrite (answer_rejected _ _ _ _ _ H1 H2). reflexivity.
Qed.

(** X1. Each of the eleven plain read coroutines sends one GET without a
    body; on a 2xx answer it returns the decoded body unchanged, and every
    failure reaches the caller as raised: the exception of the transport,
    an [HTTPStatusError] for a status outside 200..299, the decoding error
    for a body that is not JSON. *)
Theorem reads_return_decoded_body q t :
  ∃ p, let req := Request "GET" p None in
    snd (fetch q t) = t ++ [Sent req]
    ∧ (∀ resp v, hub t req = inr resp → HubClient.is_success resp = true →
         loads (content resp) = inr v → fst (fetch q t) = inr v)
    ∧ (∀ e, hub t req = inl e → fst (fetch q t) = inl e)
    ∧ (∀ resp, hub t req = inr resp → HubClient.is_success resp = false →
         fst (fetch q t) = inl (HTTPStatusError (status_message resp)))
    ∧ (∀ resp m, hub t req = inr resp → HubClient.is_success resp = true →
         loads (content resp) = inl m →
         fst (fetch q t) = inl (JSONDecodeError m)).
Proof.
  destruct q; unfold HubClient.fetch; unfold_adapter; rewrite get_run;
    eexists; cbn [fst snd]; (split; [reflexivity|]);
    (split; [|split; [|split]]).
  all: try (intros resp v H1 H2 H3; rewrite (decoded_after_ok _ _ _ H1 H2);
            unfold decoded; rewrite H3; reflexivity).
  all: try (intros e H1; apply (failed_after_raise _ _ _ _ H1)).
  all: try (intros resp H1 H2; apply (failed_after_rejection _ _ _ _ H1 H2)).
  all: intros resp m H1 H2 H3; rewrite (decoded_after_ok _ _ _ H1 H2);
    unfold decoded; rewrite H3; reflexivity.
Qed.

(** X2. No mutating coroutine recovers from a failure or tries again: it
    sends its one request, and when the transport raises or the hub
    answers outside 200..299 the exception reaches the caller. A refused
    DELETE, in particular, never yields [{"status": "deleted"}]. *)
Theorem mutations_propagate_failures m t :
  ∃ req,
    snd (mutate m t) = t ++ [Sent req]
    ∧ (∀ e, hub t req = inl e → fst (mutate m t) = inl e)
    ∧ (∀ resp, hub t req = inr resp → HubClient.is_success resp = false →
         fst (mutate m t) = inl (HTTPStatusError (status_message resp))).
Proof.
  destruct m; unfold HubClient.mutate; unfold_adapter; run;
    eexists; cbn [fst snd]; (split; [reflexivity|]); split.
  all: try (intros e H1; apply (failed_after_raise _ _ _ _ H1)).
  all: intros resp H1 H2; apply (failed_after_rejection _ _ _ _ H1 H2).
Qed.

(** X3. The health check raises in two situations only: the request
    raised something other than an [HTTPStatusError], or the hub answered
    2xx with a body that does not decode. *)
Theorem get_health_raises_only t e :
  let req := Request "GET" "/health" None in
  fst (get_health t) = inl e
  ↔ (hub t req = inl e ∧ ∀ m, e ≠ HTTPStatusError m)
    ∨ (∃ resp m, hub t req = inr resp ∧ HubClient.is_success resp = true
                 ∧ loads (content resp) = inl m ∧ e = JSONDecodeError m).
Proof.
  intros req. unfold HubClient.get_health, try_except. rewrite get_run.
  fold req. unfold answer, and_then, decoded. cbn [fst].
  destruct (hub t req) as [e0|resp] eqn:Hhub.
  - destruct e0; cbn [fst]; split.
    all: try (intros H; discriminate H).
    all: try (intros H; inversion H; subst; left; split;
              [reflexivity|intros m0 Hm; discriminate Hm]).
    all: intros [[H1 H2]|(resp & m0 & H1 & _)]; try discriminate H1.
    all: inversion H1; subst; try reflexivity.
    exfalso. eapply H2. reflexivity.
  - destruct (HubClient.is_success resp) eqn:Hs; cbn [fst].
    + destruct (loads (content resp)) as [m|v] eqn:Hl; cbn [fst]; split.
      * intros H; inversion H; subst. right. exists resp, m. auto.
      * intros [[H1 _]|(resp' & m' & H1 & _ & H3 & H4)];
          [discriminate H1|].
        inversion H1; subst. rewrite Hl in H3. inversion H3; subst.
        reflexivity.
      * intros H; discriminate H.
      * intros [[H1 _]|(resp' & m' & H1 & _ & H3 & _)];
          [discriminate H1|].
        inversion H1; subst. rewrite Hl in H3. discriminate H3.
    + split.
      * intros H; discriminate H.
      * intros [[H1 _]|(resp' & m' & H1 & H2 & _)]; [discriminate H1|].
        inversion H1; subst. rewrite Hs in H2. discriminate H2.
Qed.

(** X4. [list_servers] on a user record without a [servers] entry gives
    the empty mapping, and on a 2xx body that is not an object it raises
    an [AttributeError] instead of returning anything. *)
Theorem list_servers_without_mapping user t resp v :
  hub t (Request "GET" ("/users/" +:+ user) None) = inr resp →
  HubClient.is_success resp = true →
  loads (content resp) = inr v →
  (∀ record, v = JObj record → record !! "servers" = None →
     fst (list_servers user t) = inr (JObj ∅))
  ∧ ((∀ record, v ≠ JObj record) →
       fst (list_servers user t)
       = inl (AttributeError
                ("'" +:+ type_name v +:+ "' object has no attribute 'get'"))).
Proof.
  intros H1 H2 H3.
  unfold HubClient.list_servers, mbind, io_bind. rewrite get_run.
  rewrite (decoded_after_ok _ _ _ H1 H2). unfold decoded. rewrite H3.
  split.
  - intros record -> Hnone. unfold py_get. rewrite Hnone. reflexivity.
  - intros Hv. destruct v; try reflexivity. exfalso. eapply Hv. reflexivity.
Qed.

Lemma falsy_dict_default (options : option (gmap string json)) :
  (if truthy_dict options then default ∅ options else ∅) = default ∅ options.
Proof.
  destruct options as [m|]; [|reflexivity]. cbn [truthy_dict default].
  case_bool_decide as Hsize; [|reflexivity].
  cbn [negb]. symmetry. apply map_size_empty_iff, Hsize.
Qed.

(** X5. [start_server] always posts an object: the options as they were
    given, and the empty object when there are none; the server name left
    out gives the path of the default server, ending in [/servers/]. *)
Theorem start_server_posts_options user server_name options t :
  snd (start_server user server_name options t)
  = t ++ [Sent (Request "POST"
                  ("/users/" +:+ user +:+ "/servers/"
                   +:+ default "" server_name)
                  (Some (JObj (default ∅ options))))].
Proof.
  unfold HubClient.start_server. rewrite post_run. cbn [snd].
  rewrite falsy_dict_default. reflexivity.
Qed.

(** X6. The mutating coroutines that send no body at all are the five
    built on DELETE and the three admin POSTs ([shutdown_hub],
    [force_proxy_check], [cull_servers]); every other one sends a JSON
    object, even an empty one. *)
Theorem bodiless_mutations m t req :
  snd (mutate m t) = t ++ [Sent req] →
  (body req = None
   ↔ HubClient.is_delete m = true ∨ m = HubClient.ShutdownHub
     ∨ m = HubClient.ForceProxyCheck ∨ m = HubClient.CullServers)
  ∧ (body req ≠ None → ∃ d, body req = Some (JObj d)).
Proof.
  destruct m; unfold HubClient.mutate; unfold_adapter; run; cbn [snd];
    intros H; apply app_inv_head in H; inversion H; subst; cbn [body];
    (split; [split|]).
  all: try (intros _; eexists; reflexivity).
  all: try (intros Hn; exfalso; apply Hn; reflexivity).
  all: try (intros Hn; discriminate Hn).
  all: try (intros _; cbn [HubClient.is_delete]; tauto).
  all: intros [Hd|[Hd|[Hd|Hd]]]; discriminate Hd.
Qed.

(** X7. [modify_user] tests its flag against [None], not for truth: a
    [False] is sent like a [True], so an admin can be demoted; with no
    flag the PATCH still goes out, with the empty object. *)
Theorem modify_user_sends_false name t :
  (∀ a, snd (HubClient.modify_user hub loads status_message name (Some a) t)
        = t ++ [Sent (Request "PATCH" ("/users/" +:+ name)
                        (Some (JObj {[ "admin" := JBool a ]})))])
  ∧ snd (HubClient.modify_user hub loads status_message name None t)
    = t ++ [Sent (Request "PATCH" ("/users/" +:+ name) (Some (JObj ∅)))].
Proof.
  unfold HubClient.modify_user. split; [intros a|]; rewrite patch_run;
    cbn [snd]; rewrite ?insert_empty; reflexivity.
Qed.

(** X8. A note that is not empty and an expiry that is not zero are sent
    as given, a negative expiry included: [create_token] checks
    neither. *)
Theorem create_token_forwards_values user note expires_in t :
  note ≠ "" → expires_in ≠ 0 →
  snd (HubClient.create_token hub loads status_message user
         (Some note) (Some expires_in) t)
  = t ++ [Sent (Request "POST" ("/users/" +:+ user +:+ "/tokens")
                  (Some (JObj (<["expires_in" := JInt expires_in]>
                                 {[ "note" := JStr note ]}))))].
Proof.
  intros Hn He. unfold HubClient.create_token. rewrite post_run. cbn [snd].
  destruct note as [|c n]; [congruence|].
  cbn [truthy_str truthy_int default].
  destruct (Z.eqb_spec expires_in 0); [congruence|]. cbn [negb].
  rewrite insert_empty. reflexivity.
Qed.

(** X9. Names are put into the path as they are, without quoting: a
    user name holding [/servers/] or [/tokens/], or a group name holding
    [/users/], makes a coroutine send the request of another one. *)
Theorem path_segments_are_not_quoted a b t :
  HubClient.get_user hub loads status_message (a +:+ "/servers/" +:+ b) t
  = HubClient.get_server hub loads status_message a (Some b) t
  ∧ HubClient.delete_user hub loads status_message (a +:+ "/tokens/" +:+ b) t
    = HubClient.delete_token hub loads status_message a b t
  ∧ HubClient.delete_group hub loads status_message (a +:+ "/users/" +:+ b) t
    = HubClient.remove_user_from_group hub loads status_message a b t
  ∧ HubClient.delete_user hub loads status_message (a +:+ "/servers/" +:+ b) t
    = HubClient.stop_server hub loads status_message a (Some b) t.
Proof.
  unfold_adapter. cbn [default]. repeat split.
Qed.

End Adapter_facts.

(** ** Further properties of the gateway *)

Section Gateway_facts.
Variable hub : list event → request → exn + response.
Variable loads : string → string + json.
Variable status_message : response → string.

Abbreviation hub_client := (HubClient.client hub loads status_message).
Abbreviation serve := (Api.serve hub loads status_message).

Ltac unfold_routes :=
  unfold Api.health, Api.hub_info, Api.list_users, Api.get_user,
    Api.create_user, Api.delete_user, Api.modify_user,
    Api.list_user_servers, Api.get_server, Api.start_server,
    Api.stop_server, Api.list_groups, Api.get_group, Api.create_group,
    Api.delete_group, Api.add_user_to_group, Api.remove_user_from_group,
    Api.list_services, Api.get_service, Api.list_tokens,
    Api.create_token, Api.delete_token, Api.shutdown_hub,
    Api.get_proxy_info, Api.cull_servers.

Ltac project_client :=
  cbn [HubClient.client Adapter.get_health Adapter.get_info
       Adapter.list_users Adapter.get_user Adapter.create_user
       Adapter.delete_user Adapter.modify_user Adapter.list_servers
       Adapter.get_server Adapter.start_server Adapter.stop_server
       Adapter.list_groups Adapter.get_group Adapter.create_group
       Adapter.delete_group Adapter.add_user_to_group
       Adapter.remove_user_from_group Adapter.list_services
       Adapter.get_service Adapter.list_tokens Adapter.get_token
       Adapter.create_token Adapter.delete_token Adapter.shutdown_hub
       Adapter.get_proxy Adapter.force_proxy_check Adapter.cull_servers].

Ltac unfold_coroutines :=
  unfold HubClient.get_info, HubClient.list_users, HubClient.get_user,
    HubClient.create_user, HubClient.delete_user, HubClient.modify_user,
    HubClient.get_server, HubClient.start_server, HubClient.stop_server,
    HubClient.list_groups, HubClient.get_group, HubClient.create_group,
    HubClient.delete_group, HubClient.add_user_to_group,
    HubClient.remove_user_from_group, HubClient.list_services,
    HubClient.get_service, HubClient.list_tokens, HubClient.create_token,
    HubClient.delete_token, HubClient.shutdown_hub, HubClient.get_proxy,
    HubClient.cull_servers, try_except, mbind, io_bind.

Ltac run_any :=
  first [ rewrite post_run | rewrite patch_run | rewrite delete_run
        | rewrite get_run ].

(** X10. On success a handler returns what the adapter returned, except
    the four routes declared with status 204, which drop the adapter's
    result and return a fixed object. Proved for every adapter. *)
Theorem routes_return_adapter_result (client : Adapter.t) r t v t' :
  Api.adapter_call r client t = (inr v, t') →
  Api.endpoint r client t
  = (inr match r with
         | Api.DeleteUser _ | Api.DeleteGroup _ | Api.DeleteToken _ _ =>
             JObj {[ "status" := JStr "deleted" ]}
         | Api.RemoveUserFromGroup _ _ => JObj {[ "status" := JStr "removed" ]}
         | _ => v
         end, t').
Proof.
  intros H.
  destruct r; cbn [Api.endpoint Api.adapter_call] in *; unfold_routes;
    unfold try_except, mbind, io_bind; rewrite H; reflexivity.
Qed.

(** X11. The upstream request of a route has the verb of the route. Its
    path is the path of the route too, except for the three admin routes,
    which drop the [/admin] prefix, and for the list of a user's servers,
    which asks for the user record. *)
Theorem routes_mirror_verb_and_path r t :
  ∃ req,
    snd (Api.endpoint r hub_client t) = t ++ [Sent req]
    ∧ method req = Api.http_method r
    ∧ match r with
      | Api.ListUserServers _ => Api.url_path r = path req +:+ "/servers"
      | Api.ShutdownHub | Api.GetProxyInfo | Api.CullServers =>
          Api.url_path r = "/admin" +:+ path req
      | _ => path req = Api.url_path r
      end.
Proof.
  destruct r; cbn [Api.endpoint]; unfold_routes; project_client.
  1: { eexists; split; [apply get_health_trace|split; reflexivity]. }
  7: { eexists; split; [apply list_servers_trace|split; reflexivity]. }
  all: unfold_coroutines; run_any; eexists;
    (split; [destruct (and_then _ _); reflexivity|split; reflexivity]).
Qed.

(** X12. What the routes can make the adapter send: the start-server
    route never carries spawn options, its body is always the empty
    object; the create-user route always sends both [name] and [admin];
    the create-group route sends [users] exactly when the list of the
    request is not empty. *)
Theorem route_payloads t :
  (∀ u s,
     snd (Api.start_server hub_client u s t)
     = t ++ [Sent (Request "POST"
                     ("/users/" +:+ u +:+ "/servers/" +:+ default "" s)
                     (Some (JObj ∅)))])
  ∧ (∀ d,
       snd (Api.create_user hub_client d t)
       = t ++ [Sent (Request "POST" "/users"
                       (Some (JObj (<["admin" := JBool (cu_admin d)]>
                                      {[ "name" := JStr (cu_name d) ]}))))])
  ∧ (∀ d,
       snd (Api.create_group hub_client d t)
       = t ++ [Sent (Request "POST" "/groups"
                 (Some (JObj
                   match cg_users d with
                   | [] => {[ "name" := JStr (cg_name d) ]}
                   | us => <["users" := JList (JStr <$> us)]>
                             {[ "name" := JStr (cg_name d) ]}
                   end)))]).
Proof.
  unfold_routes; project_client; unfold_coroutines.
  split; [|split].
  - intros u s. rewrite post_run. reflexivity.
  - intros d. rewrite post_run. reflexivity.
  - intros d. rewrite post_run. destruct (cg_users d); reflexivity.
Qed.

Lemma get_client_run {A} (use : Adapter.t → io A) t :
  Api.get_client hub loads status_message use t
  = (fst (use hub_client (t ++ [Opened])),
     snd (use hub_client (t ++ [Opened])) ++ [Closed]).
Proof.
  unfold Api.get_client, HubClient.init, emit, try_finally, mbind, io_bind.
  cbn [HubClient.client Adapter.close]. unfold HubClient.close, emit.
  destruct (use hub_client (t ++ [Opened])) as [[e|v] t1]; reflexivity.
Qed.

(** X13. The get-user handler, run inside its dependency, raises nothing
    but the 404: an unreachable hub, a status outside 200..299 (a 500 as
    well as a 404) and a body that does not decode are all reported as
    "User ... not found", after one GET and with the connection
    closed. *)
Theorem get_user_route_hides_upstream_failures u t :
  let req := Request "GET" ("/users/" +:+ u) None in
  let not_found := HTTPException 404 ("User " +:+ u +:+ " not found") in
  let handled :=
    Api.get_client hub loads status_message
      (λ client, Api.get_user client u) t in
  snd handled = t ++ [Opened; Sent req; Closed]
  ∧ (∀ e, fst handled = inl e → e = not_found)
  ∧ (∀ e, hub (t ++ [Opened]) req = inl e → fst handled = inl not_found)
  ∧ (∀ resp, hub (t ++ [Opened]) req = inr resp →
       HubClient.is_success resp = false → fst handled = inl not_found)
  ∧ (∀ resp m, hub (t ++ [Opened]) req = inr resp →
       HubClient.is_success resp = true →
       loads (content resp) = inl m → fst handled = inl not_found).
Proof.
  intros req not_found handled. unfold handled. rewrite get_client_run.
  cbn [fst snd]. unfold Api.get_user; project_client.
  unfold HubClient.get_user, try_except. rewrite get_run. fold req.
  split; [|split; [|split; [|split]]].
  - destruct (and_then _ _); unfold raise; cbn [snd];
      rewrite <- !app_assoc; reflexivity.
  - intros e. destruct (and_then _ _); unfold raise; cbn [fst];
      intros H; inversion H; reflexivity.
  - intros e H1. rewrite (answer_raised _ _ _ _ _ H1). reflexivity.
  - intros resp H1 H2. rewrite (answer_rejected _ _ _ _ _ H1 H2).
    reflexivity.
  - intros resp m H1 H2 H3. rewrite (answer_ok _ _ _ _ _ H1 H2).
    unfold and_then, decoded. rewrite H3. reflexivity.
Qed.

(** X14. When the hub refuses the health request, the health handler,
    run inside its dependency, does not raise: it returns the degraded
    result, so the route goes on as for a success; the connection is
    closed as usual. *)
Theorem health_handler_returns_on_rejection t resp :
  hub (t ++ [Opened]) (Request "GET" "/health" None) = inr resp →
  HubClient.is_success resp = false →
  Api.get_client hub loads status_message Api.health t
  = (inr (degraded (status_message resp)),
     t ++ [Opened; Sent (Request "GET" "/health" None); Closed]).
Proof.
  intros H1 H2. rewrite get_client_run.
  unfold Api.health; project_client.
  unfold HubClient.get_health, try_except. rewrite get_run.
  rewrite (answer_rejected _ _ _ _ _ H1 H2). cbn [and_then].
  unfold mret, io_ret. cbn [fst snd].
  rewrite <- !app_assoc. reflexivity.
Qed.

(** X15. Every route other than health and get-user lets an upstream
    failure through: when the transport raises or the hub answers outside
    200..299, serving the request raises that very exception (after the
    connection has been closed), a 404 of the hub included. *)
Theorem routes_surface_upstream_failures r t :
  match r with
  | Api.Health | Api.GetUser _ => True
  | _ =>
      ∃ req,
        snd (serve r t) = t ++ [Opened; Sent req; Closed]
        ∧ (∀ e, hub (t ++ [Opened]) req = inl e → fst (serve r t) = inl e)
        ∧ (∀ resp, hub (t ++ [Opened]) req = inr resp →
             HubClient.is_success resp = false →
             fst (serve r t) = inl (HTTPStatusError (status_message resp)))
  end.
Proof.
  destruct r; try exact I; rewrite serve_run; cbn [Api.endpoint fst snd];
    unfold_routes; project_client;
    unfold HubClient.list_servers; unfold_coroutines; run_any;
    eexists;
    (split; [destruct (and_then _ _) as [?|v];
             unfold py_get, raise, mret, io_ret; try destruct v;
             cbn [snd]; rewrite <- !app_assoc; reflexivity|]);
    (split; [intros e H1; rewrite (answer_raised _ _ _ _ _ H1)
            |intros resp H1 H2; rewrite (answer_rejected _ _ _ _ _ H1 H2)]);
    reflexivity.
Qed.

End Gateway_facts.

(** ** Further properties of the dashboard helper and of the constructor *)

(** X16. [fetch_health] of the dashboard never raises, whatever the hub
    does: it sends the one health request and returns a value; what
    [get_health] lets through (a transport failure, a body that does not
    decode) comes back as [{"status": "error", "detail": str(e)}]. *)
Theorem fetch_health_never_raises
    (hub : list event → request → exn + response)
    (loads : string → string + json) (status_message : response → string)
    (str : exn → string) t :
  let client := HubClient.client hub loads status_message in
  let req := Request "GET" "/health" None in
  snd (Ui.fetch_health client str t) = t ++ [Sent req]
  ∧ (∃ v, fst (Ui.fetch_health client str t) = inr v)
  ∧ (∀ m, hub t req = inl (TransportError m) →
       fst (Ui.fetch_health client str t)
       = inr (degraded (str (TransportError m))))
  ∧ (∀ resp m, hub t req = inr resp → HubClient.is_success resp = true →
       loads (content resp) = inl m →
       fst (Ui.fetch_health client str t)
       = inr (degraded (str (JSONDecodeError m)))).
Proof.
  intros client req. unfold Ui.fetch_health, client.
  cbn [HubClient.client Adapter.get_health].
  unfold HubClient.get_health, try_except. rewrite get_run. fold req.
  split; [|split; [|split]].
  - destruct (and_then _ _) as [[]|v]; reflexivity.
  - destruct (and_then _ _) as [[]|v]; eexists; reflexivity.
  - intros m H1. rewrite (answer_raised _ _ _ _ _ H1). reflexivity.
  - intros resp m H1 H2 H3. rewrite (answer_ok _ _ _ _ _ H1 H2).
    unfold and_then, decoded. rewrite H3. reflexivity.
Qed.

Lemma rstrip_slash_keeps_prefix s :
  ∃ n, s = HubClient.rstrip_slash s +:+ slashes n.
Proof.
  induction s as [|c s [n IH]]; [exists 0%nat; reflexivity|].
  cbn [HubClient.rstrip_slash].
  destruct (HubClient.rstrip_slash s) as [|c' r] eqn:Hr.
  - cbn [String.append] in IH. subst s.
    destruct (Ascii.eqb_spec c "/"%char) as [->|Hc].
    + exists (S n). reflexivity.
    + exists n. reflexivity.
  - exists n. rewrite IH at 1. reflexivity.
Qed.

Lemma rstrip_slash_no_trailing s r :
  HubClient.rstrip_slash s ≠ r +:+ "/".
Proof.
  revert r. induction s as [|c s IH]; intros r; cbn [HubClient.rstrip_slash].
  - destruct r; discriminate.
  - destruct (HubClient.rstrip_slash s) as [|c' r'] eqn:Hr.
    + destruct (Ascii.eqb_spec c "/"%char) as [->|Hc].
      * destruct r; discriminate.
      * destruct r as [|c1 r1]; cbn [String.append]; intros H;
          inversion H; subst; [congruence|].
        destruct r1; discriminate.
    + destruct r as [|c1 r1]; cbn [String.append]; intros H;
        inversion H; subst.
      apply (IH r1). assumption.
Qed.

(** X17. The constructor keeps the base URL without any trailing slash
    (only slashes are cut off), so the base URL of the HTTP client joins
    it to [/hub/api] with a single slash; an empty [base_url] or
    [api_token] gives way to the settings, while a [verify] that was
    passed is kept even when it is [False]. *)
Theorem constructor_attributes settings base_url api_token verify :
  let a := HubClient.attributes_of settings base_url api_token verify in
  let url := match base_url with
             | Some (String c u) => String c u
             | _ => Settings.jupyterhub_url settings
             end in
  (∃ n, url = HubClient._base_url a +:+ slashes n)
  ∧ (∀ r, HubClient._base_url a ≠ r +:+ "/")
  ∧ HubClient.client_base_url a = HubClient._base_url a +:+ "/hub/api"
  ∧ HubClient.client_authorization a
    = "token " +:+ match api_token with
                   | Some (String c k) => String c k
                   | _ => Settings.api_token settings
                   end
  ∧ HubClient.client_verify a
    = match verify with
      | Some v => v
      | None => Settings.verify_ssl settings
      end.
Proof.
  intros a url. unfold a, HubClient.attributes_of.
  cbn [HubClient._base_url HubClient.client_base_url
       HubClient.client_authorization HubClient.client_verify].
  replace (if truthy_str base_url then default "" base_url
           else Settings.jupyterhub_url settings) with url
    by (unfold url; destruct base_url as [[|c u]|]; reflexivity).
  split; [apply rstrip_slash_keeps_prefix|].
  split; [apply rstrip_slash_no_trailing|].
  split; [reflexivity|].
  split; [destruct api_token as [[|c k]|]; reflexivity|].
  destruct verify; reflexivity.
Qed.

(** ** The further properties at concrete inputs *)

(** Reading the record of alice from a hub that answers 200. *)
Lemma reads_return_decoded_body_witness :
  fst (HubClient.fetch (hub_ok "<alice>") demo_loads demo_message
         (HubClient.GetUser "alice") [])
  = inr (JObj alice_record).
Proof.
  destruct (reads_return_decoded_body (hub_ok "<alice>") demo_loads
              demo_message (HubClient.GetUser "alice") [])
    as (p & _ & Hok & _).
  apply (Hok (Response 200 "<alice>")); reflexivity.
Defined.

(** Deleting a user on a hub that answers 503. *)
Lemma mutations_propagate_failures_witness :
  fst (HubClient.mutate hub_unavailable demo_loads demo_message
         (HubClient.DeleteUser "alice") [])
  = inl (HTTPStatusError "Server error").
Proof.
  destruct (mutations_propagate_failures hub_unavailable demo_loads
              demo_message (HubClient.DeleteUser "alice") [])
    as (req & _ & _ & Hrej).
  apply (Hrej (Response 503 "Service Unavailable")); reflexivity.
Defined.

(** The health check of an unreachable hub raises the transport error. *)
Lemma get_health_raises_only_witness :
  fst (HubClient.get_health hub_down demo_loads demo_message [])
  = inl (TransportError "All connection attempts failed").
Proof.
  apply (get_health_raises_only hub_down demo_loads demo_message []).
  left. split; [reflexivity|]. intros m H. discriminate H.
Defined.

(** The servers of a user whose record is the empty object. *)
Lemma list_servers_without_mapping_witness :
  fst (HubClient.list_servers (hub_ok "{}") demo_loads demo_message
         "alice" [])
  = inr (JObj ∅).
Proof.
  destruct (list_servers_without_mapping (hub_ok "{}") demo_loads
              demo_message "alice" [] (Response 200 "{}") (JObj ∅)
              eq_refl eq_refl eq_refl) as (H & _).
  apply (H ∅); reflexivity.
Defined.

(** Shutting the hub down sends a POST without a body. *)
Lemma bodiless_mutations_witness :
  body (Request "POST" "/shutdown" None) = None
  ↔ HubClient.is_delete HubClient.ShutdownHub = true
    ∨ HubClient.ShutdownHub = HubClient.ShutdownHub
    ∨ HubClient.ShutdownHub = HubClient.ForceProxyCheck
    ∨ HubClient.ShutdownHub = HubClient.CullServers.
Proof.
  apply (bodiless_mutations hub_down demo_loads demo_message
           HubClient.ShutdownHub [] (Request "POST" "/shutdown" None)).
  reflexivity.
Defined.

(** A token with a note and a negative expiry. *)
Lemma create_token_forwards_values_witness :
  snd (HubClient.create_token hub_down demo_loads demo_message
         "alice" (Some "ci") (Some (-1)) [])
  = [Sent (Request "POST" "/users/alice/tokens"
             (Some (JObj (<["expires_in" := JInt (-1)]>
                            {[ "note" := JStr "ci" ]}))))].
Proof.
  apply (create_token_forwards_values hub_down demo_loads demo_message
           "alice" "ci" (-1) []); discriminate.
Defined.

(** The delete-user route when the hub answers 200 with a body: the body
    is dropped. *)
Lemma routes_return_adapter_result_witness :
  Api.endpoint (Api.DeleteUser "alice")
    (HubClient.client (hub_ok "{}") demo_loads demo_message) []
  = (inr (JObj {[ "status" := JStr "deleted" ]}),
     [Sent (Request "DELETE" "/users/alice" None)]).
Proof.
  apply (routes_return_adapter_result
           (HubClient.client (hub_ok "{}") demo_loads demo_message)
           (Api.DeleteUser "alice") [] (JObj ∅)).
  reflexivity.
Defined.

(** Looking up a user while the hub answers 503. *)
Lemma get_user_route_hides_upstream_failures_witness :
  fst (Api.get_client hub_unavailable demo_loads demo_message
         (λ client, Api.get_user client "alice") [])
  = inl (HTTPException 404 "User alice not found").
Proof.
  destruct (get_user_route_hides_upstream_failures hub_unavailable
              demo_loads demo_message "alice" [])
    as (_ & _ & _ & Hrej & _).
  apply (Hrej (Response 503 "Service Unavailable")); reflexivity.
Defined.

(** The health handler while the hub answers 503. *)
Lemma health_handler_returns_on_rejection_witness :
  Api.get_client hub_unavailable demo_loads demo_message Api.health []
  = (inr (degraded "Server error"),
     [Opened; Sent (Request "GET" "/health" None); Closed]).
Proof.
  apply (health_handler_returns_on_rejection hub_unavailable demo_loads
           demo_message [] (Response 503 "Service Unavailable"));
    reflexivity.
Defined.

(** Looking up a group the hub does not know: the hub's 404 comes out as
    the raised [HTTPStatusError], not as a 404 of the gateway. *)
Lemma routes_surface_upstream_failures_witness :
  fst (Api.serve hub_not_found demo_loads demo_message
         (Api.GetGroup "nonexistent") [])
  = inl (HTTPStatusError "Client error").
Proof.
  destruct (routes_surface_upstream_failures hub_not_found demo_loads
              demo_message (Api.GetGroup "nonexistent") [])
    as (req & _ & _ & Hrej).
  apply (Hrej (Response 404 "Not Found")); reflexivity.
Defined.

(** The dashboard's health helper with the hub unreachable. *)
Lemma fetch_health_never_raises_witness :
  fst (Ui.fetch_health (HubClient.client hub_down demo_loads demo_message)
         demo_str [])
  = inr (degraded "All connection attempts failed").
Proof.
  destruct (fetch_health_never_raises hub_down demo_loads demo_message
              demo_str []) as (_ & _ & Hdown & _).
  apply (Hdown "All connection attempts failed"); reflexivity.
Defined.

(** The constructor of [test_hub_client_initialization], with a slash too
    many at the end of the URL. *)
Lemma constructor_attributes_witness :
  HubClient._base_url
    (HubClient.attributes_of demo_settings (Some "https://test.hub.com/")
       (Some "test-token") (Some false))
  = "https://test.hub.com"
  ∧ HubClient.client_base_url
      (HubClient.attributes_of demo_settings (Some "https://test.hub.com/")
         (Some "test-token") (Some false))
    = "https://test.hub.com/hub/api"
  ∧ HubClient.client_authorization
      (HubClient.attributes_of demo_settings (Some "https://test.hub.com/")
         (Some "test-token") (Some false))
    = "token test-token"
  ∧ HubClient.client_verify
      (HubClient.attributes_of demo_settings (Some "https://test.hub.com/")
         (Some "test-token") (Some false))
    = false.
Proof.
  destruct (constructor_attributes demo_settings
              (Some "https://test.hub.com/") (Some "test-token")
              (Some false))
    as (_ & _ & Hurl & Hauth & Hverify).
  split; [reflexivity|]. split; [exact Hurl|]. split; [exact Hauth|].
  exact Hverify.
Defined.
